(** * CodeDeploy deployment config resource: expand/flatten mapping and lifecycle

    A shallow embedding of [internal/service/deploy/deployment_config.go]:
    the schema declaration, the expand and flatten functions between the
    attribute tree and the API shapes, and the create, read and delete
    callbacks with the lookup helper.

    Go values of type [interface{}] are a tagged union, maps are finite maps
    keyed by strings, pointers are options, a run-time panic is a result of
    its own, and the calls to the CodeDeploy client are the nodes of a
    program tree that a client interprets. *)

From Stdlib Require Import ZArith Lia.
From stdpp Require Import base strings gmap list option pretty.

#[local] Set Warnings "-register-all".
#[local] Open Scope Z_scope.

(** ** Go values *)

Module Go.

(** A function either returns or panics. *)
Inductive result (A : Type) : Type :=
| Ok (a : A)
| Panic (msg : string).
Arguments Ok {A} a.
Arguments Panic {A} msg.

Definition bind {A B} (r : result A) (k : A -> result B) : result B :=
  match r with
  | Ok a => k a
  | Panic msg => Panic msg
  end.

Definition isOk {A} (r : result A) : bool :=
  match r with Ok _ => true | Panic _ => false end.

(** Two's complement integers of width [w]; conversion wraps around. *)
Definition wrap (w : Z) (n : Z) : Z :=
  (n + 2 ^ (w - 1)) mod 2 ^ w - 2 ^ (w - 1).

Definition int32 (n : Z) : Z := wrap 32 n.
Definition int64 (n : Z) : Z := wrap 64 n.

Definition fits (w : Z) (n : Z) : Prop := - 2 ^ (w - 1) <= n < 2 ^ (w - 1).

(** [int] has 64 bits here. *)
Definition is_int (n : Z) : Prop := fits 64 n.
Definition is_int32 (n : Z) : Prop := fits 32 n.

(** The dynamic values that occur behind [interface{}] in this file.
    [VMaps None] is the nil slice of type [[]map[string]interface{}],
    [VMaps (Some [])] the empty one that [make] returns. *)
Inductive value : Type :=
| VNil
| VString (s : string)
| VStringPtr (p : option string)
| VInt (n : Z)
| VInt32 (n : Z)
| VInt64Ptr (p : option Z)
| VSlice (l : list value)
| VMap (m : gmap string value)
| VMaps (l : option (list (gmap string value))).

(** Type assertions [v.(T)] without the comma-ok form panic on a mismatch. *)
Definition asString (v : value) : result string :=
  match v with
  | VString s => Ok s
  | _ => Panic "interface conversion: interface {} is not string"
  end.

Definition asInt (v : value) : result Z :=
  match v with
  | VInt n => Ok n
  | _ => Panic "interface conversion: interface {} is not int"
  end.

Definition asSlice (v : value) : result (list value) :=
  match v with
  | VSlice l => Ok l
  | _ => Panic "interface conversion: interface {} is not []interface {}"
  end.

Definition asMap (v : value) : result (gmap string value) :=
  match v with
  | VMap m => Ok m
  | _ => Panic "interface conversion: interface {} is not map[string]interface {}"
  end.

(** The comma-ok form [n, ok := v.(int)]. *)
Definition asIntOk (v : value) : option Z :=
  match v with
  | VInt n => Some n
  | _ => None
  end.

(** [l[0]] *)
Definition index0 (l : list value) : result value :=
  match l with
  | x :: _ => Ok x
  | [] => Panic "index out of range [0] with length 0"
  end.

(** [m[k]] yields the nil interface for a missing key. *)
Definition mapIndex (m : gmap string value) (k : string) : value :=
  default VNil (m !! k).

(** [*p] *)
Definition deref {A} (p : option A) : result A :=
  match p with
  | Some a => Ok a
  | None => Panic "invalid memory address or nil pointer dereference"
  end.

End Go.

Import Go.

#[global] Instance result_ret : MRet Go.result := @Go.Ok.
#[global] Instance result_bind : MBind Go.result := fun A B k r => Go.bind r k.
#[global] Instance result_fmap : FMap Go.result :=
  fun A B f r => Go.bind r (fun a => Go.Ok (f a)).

(** ** API shapes of the CodeDeploy SDK *)

Module types.

Record MinimumHealthyHosts : Type := {
  mhh_Type : string;
  mhh_Value : Z
}.

Record TimeBasedCanary : Type := {
  CanaryInterval : Z;
  CanaryPercentage : Z
}.

Record TimeBasedLinear : Type := {
  LinearInterval : Z;
  LinearPercentage : Z
}.

Record TrafficRoutingConfig : Type := {
  trc_Type : string;
  trc_TimeBasedCanary : option TimeBasedCanary;
  trc_TimeBasedLinear : option TimeBasedLinear
}.

Record MinimumHealthyHostsPerZone : Type := {
  mhhz_Type : string;
  mhhz_Value : Z
}.

Record ZonalConfig : Type := {
  FirstZoneMonitorDurationInSeconds : option Z;
  MinimumHealthyHostsPerZone_ : option MinimumHealthyHostsPerZone;
  MonitorDurationInSeconds : option Z
}.

Record DeploymentConfigInfo : Type := {
  ComputePlatform : string;
  DeploymentConfigId : option string;
  DeploymentConfigName : option string;
  MinimumHealthyHosts_ : option MinimumHealthyHosts;
  TrafficRoutingConfig_ : option TrafficRoutingConfig;
  ZonalConfig_ : option ZonalConfig
}.

(** The typed exceptions of the service model that concern deployment
    configs. *)
Inductive exception : Type :=
| DeploymentConfigDoesNotExistException
| DeploymentConfigAlreadyExistsException
| DeploymentConfigInUseException
| DeploymentConfigLimitExceededException
| DeploymentConfigNameRequiredException
| InvalidDeploymentConfigNameException
| InvalidComputePlatformException
| InvalidMinimumHealthyHostValueException
| InvalidTrafficRoutingConfigurationException
| InvalidZonalDeploymentConfigurationException
| InvalidOperationException.

(** Enumeration values of the service model. *)
Definition ComputePlatformServer : string := "Server".
Definition ComputePlatformValues : list string := ["Server"; "Lambda"; "ECS"].
Definition MinimumHealthyHostsTypeValues : list string := ["HOST_COUNT"; "FLEET_PERCENT"].
Definition MinimumHealthyHostsPerZoneTypeValues : list string := ["HOST_COUNT"; "FLEET_PERCENT"].
Definition TrafficRoutingTypeValues : list string :=
  ["TimeBasedCanary"; "TimeBasedLinear"; "AllAtOnce"].

End types.

Import types.

(** Requests and responses of the three client operations the resource uses. *)
Module codedeploy.

Record CreateDeploymentConfigInput : Type := {
  create_ComputePlatform : string;
  create_DeploymentConfigName : option string;
  create_MinimumHealthyHosts : option MinimumHealthyHosts;
  create_TrafficRoutingConfig : option TrafficRoutingConfig;
  create_ZonalConfig : option ZonalConfig
}.

Record CreateDeploymentConfigOutput : Type := {
  created_DeploymentConfigId : option string
}.

Record GetDeploymentConfigInput : Type := {
  get_DeploymentConfigName : option string
}.

Record GetDeploymentConfigOutput : Type := {
  DeploymentConfigInfo_ : option DeploymentConfigInfo
}.

Record DeleteDeploymentConfigInput : Type := {
  delete_DeploymentConfigName : option string
}.

Inductive DeleteDeploymentConfigOutput : Type := DeleteDeploymentConfigOutput_.

End codedeploy.

Import codedeploy.

(** ** Errors and diagnostics *)

(** Go's [error] values that reach this file: what the client returns (a typed
    service exception or a transport failure, with its text), the not-found
    signal of the plugin SDK's [retry] package, the empty-result error of
    [tfresource], and the error of a refused [d.Set]. *)
Inductive error : Type :=
| OperationError (e : option exception) (message : string)
| NotFoundError (LastError : option error) (LastRequest : GetDeploymentConfigInput)
| EmptyResultError (LastRequest : GetDeploymentConfigInput)
| FieldWriteError (key : string).

Definition exception_eqb (a b : exception) : bool :=
  match a, b with
  | DeploymentConfigDoesNotExistException, DeploymentConfigDoesNotExistException
  | DeploymentConfigAlreadyExistsException, DeploymentConfigAlreadyExistsException
  | DeploymentConfigInUseException, DeploymentConfigInUseException
  | DeploymentConfigLimitExceededException, DeploymentConfigLimitExceededException
  | DeploymentConfigNameRequiredException, DeploymentConfigNameRequiredException
  | InvalidDeploymentConfigNameException, InvalidDeploymentConfigNameException
  | InvalidComputePlatformException, InvalidComputePlatformException
  | InvalidMinimumHealthyHostValueException, InvalidMinimumHealthyHostValueException
  | InvalidTrafficRoutingConfigurationException, InvalidTrafficRoutingConfigurationException
  | InvalidZonalDeploymentConfigurationException, InvalidZonalDeploymentConfigurationException
  | InvalidOperationException, InvalidOperationException => true
  | _, _ => false
  end.

Module errs.

(** Modelled from the spec: [errs.IsA], the helper of [internal/errs] that
    recognises "a designated API exception": it holds when the error, or an
    error it wraps, is the typed exception [T]. *)
Fixpoint IsA_chain (T : exception) (err : error) : bool :=
  match err with
  | OperationError (Some e) _ => exception_eqb T e
  | OperationError None _ => false
  | NotFoundError (Some last) _ => IsA_chain T last
  | NotFoundError None _ => false
  | EmptyResultError _ => false
  | FieldWriteError _ => false
  end.

Definition IsA (T : exception) (err : option error) : bool :=
  match err with
  | Some e => IsA_chain T e
  | None => false
  end.

End errs.

Module tfresource.

(** Modelled from the spec: [tfresource.NewEmptyResultError], which builds
    the empty-result error for a request. *)
Definition NewEmptyResultError (input : GetDeploymentConfigInput) : error :=
  EmptyResultError input.

End tfresource.

Module diag.

Inductive Severity : Type := Error | Warning.

Record Diagnostic : Type := {
  severity : Severity;
  Summary : string
}.

Abbreviation Diagnostics := (list Diagnostic).

Definition isError (x : Diagnostic) : bool :=
  match severity x with Error => true | Warning => false end.

Definition HasError (diags : Diagnostics) : bool := existsb isError diags.

End diag.

Module sdkdiag.

(** Modelled from the spec: [sdkdiag.AppendErrorf], which appends one error
    diagnostic whose summary is the formatted message. The message is passed
    already formatted. *)
Definition AppendErrorf (diags : diag.Diagnostics) (message : string) : diag.Diagnostics :=
  diags ++ [ {| diag.severity := diag.Error; diag.Summary := message |} ].

End sdkdiag.


(** ** The plugin SDK's schema and resource data

    The schema literal of the resource is data of the source file; what the
    host does with it (reading, writing and validating attributes) is not, and
    is modelled here as far as the callbacks depend on it. *)

Module schema.

Inductive ValueType : Type := TypeString | TypeInt | TypeList.

Inductive Schema : Type := mkSchema {
  s_Type : ValueType;
  s_Optional : bool;
  s_Required : bool;
  s_Computed : bool;
  s_ForceNew : bool;
  s_MaxItems : nat;
  s_ConflictsWith : list string;
  s_Default : option string;
  s_ValidateDiagFunc : option (list string);
  s_Elem : option (list (string * Schema))
}.

(** A struct literal names the fields it sets; the others are zero. *)
Inductive field : Type :=
| Type' (t : ValueType)
| Optional (b : bool)
| Required (b : bool)
| Computed (b : bool)
| ForceNew (b : bool)
| MaxItems (n : nat)
| ConflictsWith (keys : list string)
| Default (v : string)
| ValidateDiagFunc (values : list string)
| Elem (resource : list (string * Schema)).

Definition zeroSchema : Schema :=
  mkSchema TypeString false false false false 0%nat [] None None None.

Definition setField (s : Schema) (f : field) : Schema :=
  match s with
  | mkSchema t o r c n mx cw df vf el =>
    match f with
    | Type' t' => mkSchema t' o r c n mx cw df vf el
    | Optional b => mkSchema t b r c n mx cw df vf el
    | Required b => mkSchema t o b c n mx cw df vf el
    | Computed b => mkSchema t o r b n mx cw df vf el
    | ForceNew b => mkSchema t o r c b mx cw df vf el
    | MaxItems k => mkSchema t o r c n k cw df vf el
    | ConflictsWith ks => mkSchema t o r c n mx ks df vf el
    | Default v => mkSchema t o r c n mx cw (Some v) vf el
    | ValidateDiagFunc vs => mkSchema t o r c n mx cw df (Some vs) el
    | Elem res => mkSchema t o r c n mx cw df vf (Some res)
    end
  end.

Definition literal (fs : list field) : Schema := foldl setField zeroSchema fs.

Definition lookupSchema (m : list (string * Schema)) (k : string) : option Schema :=
  snd <$> find (fun e => String.eqb (fst e) k) m.

(** The zero value of a schema type. *)
Definition Zero (t : ValueType) : value :=
  match t with
  | TypeString => VString ""
  | TypeInt => VInt 0
  | TypeList => VSlice []
  end.

Definition isZero (v : value) : bool :=
  match v with
  | VNil => true
  | VString s => String.eqb s ""
  | VInt n => Z.eqb n 0
  | VSlice [] => true
  | _ => false
  end.

(** The elements of a list value handed to the writer. *)
Definition itemOf (v : value) : option (gmap string value) :=
  match v with
  | VMap m => Some m
  | _ => None
  end.

Definition itemsOf (v : value) : option (list (gmap string value)) :=
  match v with
  | VMaps None => Some []
  | VMaps (Some l) => Some l
  | VSlice l => mapM itemOf l
  | _ => None
  end.

Definition knownKeys (fields : list (string * Schema)) (m : gmap string value) : bool :=
  forallb (fun kv => bool_decide (is_Some (lookupSchema fields (fst kv)))) (map_to_list m).

(** Modelled from the spec: the host's field writer, which is not part of this
    file. The persisted state is a "nested attribute record matching the
    schema": a value is stored in the shape its schema type reads back ([int]
    for [TypeInt], [[]interface{}] of maps for a block list, every attribute
    of a block present); a value of another type, or a key that the schema
    does not declare, is refused. *)
Fixpoint writeField (s : Schema) (v : value) : option value :=
  match s with
  | mkSchema t _ _ _ _ _ _ _ _ el =>
    match t with
    | TypeString =>
      match v with
      | VString x => Some (VString x)
      | VStringPtr p => Some (VString (default "" p))
      | _ => None
      end
    | TypeInt =>
      match v with
      | VInt n | VInt32 n => Some (VInt n)
      | VInt64Ptr p => Some (VInt (default 0 p))
      | _ => None
      end
    | TypeList =>
      match el with
      | None => None
      | Some fields =>
        items ← itemsOf v;
        VSlice <$> mapM (fun m : gmap string value =>
          if knownKeys fields m then
            VMap <$> (fix writeObject (fs : list (string * Schema)) : option (gmap string value) :=
              match fs with
              | [] => Some ∅
              | (k, sk) :: fs' =>
                x ← match m !! k with
                    | Some v' => writeField sk v'
                    | None => Some (Zero (s_Type sk))
                    end;
                rest ← writeObject fs';
                Some (<[k := x]> rest)
              end) fields
          else None) items
      end
    end
  end.

(** Modelled from the spec: the host's resource data, with the identifier,
    the mark of a resource "just created in the same operation" and the
    attributes kept under the schema. *)
Record ResourceData : Type := {
  rd_schema : list (string * Schema);
  rd_id : string;
  rd_isNew : bool;
  rd_attrs : gmap string value
}.

Definition Id (d : ResourceData) : string := rd_id d.

Definition SetId (d : ResourceData) (v : string) : ResourceData :=
  {| rd_schema := rd_schema d; rd_id := v; rd_isNew := rd_isNew d; rd_attrs := rd_attrs d |}.

Definition IsNewResource (d : ResourceData) : bool := rd_isNew d.

Definition MarkNewResource (d : ResourceData) : ResourceData :=
  {| rd_schema := rd_schema d; rd_id := rd_id d; rd_isNew := true; rd_attrs := rd_attrs d |}.

(** Modelled from the spec: [d.Get] of the host, which returns the stored
    value, or for an attribute that is not set the zero value of its type. *)
Definition Get (d : ResourceData) (key : string) : value :=
  match rd_attrs d !! key with
  | Some v => v
  | None =>
    match lookupSchema (rd_schema d) key with
    | Some s => Zero (s_Type s)
    | None => VNil
    end
  end.

(** Modelled from the spec: [d.GetOk] of the host, "read an optional singleton
    block; if absent ...": the value, and whether it differs from the zero
    value of its type (for a block list: whether it has an element). *)
Definition GetOk (d : ResourceData) (key : string) : value * bool :=
  let v := Get d key in (v, negb (isZero v)).

(** Modelled from the spec: [d.Set] of the host, which writes through the
    field writer, or reports its refusal ("failure to write a derived field
    into local state"). *)
Definition Set' (d : ResourceData) (key : string) (v : value) : ResourceData * option error :=
  match lookupSchema (rd_schema d) key with
  | None => (d, Some (FieldWriteError key))
  | Some s =>
    match writeField s v with
    | None => (d, Some (FieldWriteError key))
    | Some v' =>
      ({| rd_schema := rd_schema d; rd_id := rd_id d; rd_isNew := rd_isNew d;
          rd_attrs := <[key := v']> (rd_attrs d) |}, None)
    end
  end.

End schema.

Import schema.

(** ** The resource's schema, as [resourceDeploymentConfig] declares it *)

Definition timeBasedSchema : list (string * Schema) :=
  [ ("interval", literal [Type' TypeInt; Optional true; ForceNew true]);
    ("percentage", literal [Type' TypeInt; Optional true; ForceNew true]) ].

Definition resourceDeploymentConfigSchema : list (string * Schema) :=
  [ ("compute_platform",
      literal [Type' TypeString; Optional true; ForceNew true;
               Default ComputePlatformServer;
               ValidateDiagFunc ComputePlatformValues]);
    ("deployment_config_id",
      literal [Type' TypeString; Computed true]);
    ("deployment_config_name",
      literal [Type' TypeString; Required true; ForceNew true]);
    ("minimum_healthy_hosts",
      literal [Type' TypeList; Optional true; ForceNew true; MaxItems 1;
               Elem [ ("type", literal [Type' TypeString; Optional true; ForceNew true;
                                        ValidateDiagFunc MinimumHealthyHostsTypeValues]);
                      ("value", literal [Type' TypeInt; Optional true; ForceNew true]) ]]);
    ("traffic_routing_config",
      literal [Type' TypeList; Optional true; ForceNew true; MaxItems 1;
               Elem [ ("time_based_canary",
                        literal [Type' TypeList; Optional true; ForceNew true; MaxItems 1;
                                 ConflictsWith ["traffic_routing_config.0.time_based_linear"];
                                 Elem timeBasedSchema]);
                      ("time_based_linear",
                        literal [Type' TypeList; Optional true; ForceNew true; MaxItems 1;
                                 ConflictsWith ["traffic_routing_config.0.time_based_canary"];
                                 Elem timeBasedSchema]);
                      ("type", literal [Type' TypeString; Optional true; ForceNew true;
                                        ValidateDiagFunc TrafficRoutingTypeValues]) ]]);
    ("zonal_config",
      literal [Type' TypeList; Optional true; ForceNew true; MaxItems 1;
               Elem [ ("first_zone_monitor_duration_in_seconds",
                        literal [Type' TypeInt; Optional true; ForceNew true]);
                      ("minimum_healthy_hosts_per_zone",
                        literal [Type' TypeList; Optional true; ForceNew true; MaxItems 1;
                                 Elem [ ("type", literal [Type' TypeString; Optional true; ForceNew true;
                                                          ValidateDiagFunc MinimumHealthyHostsPerZoneTypeValues]);
                                        ("value", literal [Type' TypeInt; Optional true; ForceNew true]) ]]);
                      ("monitor_duration_in_seconds",
                        literal [Type' TypeInt; Optional true; ForceNew true]) ]]) ].

(** The schema of a top-level attribute. *)
Definition schemaOf (k : string) : option Schema :=
  lookupSchema resourceDeploymentConfigSchema k.

(** ** Expand: from the attribute tree to the API shapes *)

Definition expandMinimumHealthyHosts (d : ResourceData) : result (option MinimumHealthyHosts) :=
  let '(hosts, ok) := GetOk d "minimum_healthy_hosts" in
  if negb ok then Ok None
  else
    l ← asSlice hosts;
    e ← index0 l;
    host ← asMap e;
    ty ← asString (mapIndex host "type");
    v ← asInt (mapIndex host "value");
    Ok (Some {| mhh_Type := ty; mhh_Value := int32 v |}).

Definition expandTimeBasedCanary (config : gmap string value) : result TimeBasedCanary :=
  interval ← match config !! "interval" with
             | Some interval => int32 <$> asInt interval
             | None => Ok 0
             end;
  percentage ← match config !! "percentage" with
               | Some percentage => int32 <$> asInt percentage
               | None => Ok 0
               end;
  Ok {| CanaryInterval := interval; CanaryPercentage := percentage |}.

Definition expandTimeBasedLinear (config : gmap string value) : result TimeBasedLinear :=
  interval ← match config !! "interval" with
             | Some interval => int32 <$> asInt interval
             | None => Ok 0
             end;
  percentage ← match config !! "percentage" with
               | Some percentage => int32 <$> asInt percentage
               | None => Ok 0
               end;
  Ok {| LinearInterval := interval; LinearPercentage := percentage |}.

Definition expandTrafficRoutingConfig (d : ResourceData) : result (option TrafficRoutingConfig) :=
  let '(block, ok) := GetOk d "traffic_routing_config" in
  if negb ok then Ok None
  else
    l ← asSlice block;
    e ← index0 l;
    config ← asMap e;
    ty ← match config !! "type" with
         | Some trafficType => asString trafficType
         | None => Ok ""
         end;
    canary ← match config !! "time_based_canary" with
             | Some canary =>
               cl ← asSlice canary;
               if (0 <? Z.of_nat (length cl)) then
                 ce ← index0 cl;
                 canaryConfig ← asMap ce;
                 Some <$> expandTimeBasedCanary canaryConfig
               else Ok None
             | None => Ok None
             end;
    linear ← match config !! "time_based_linear" with
             | Some linear =>
               ll ← asSlice linear;
               if (0 <? Z.of_nat (length ll)) then
                 le ← index0 ll;
                 linearConfig ← asMap le;
                 Some <$> expandTimeBasedLinear linearConfig
               else Ok None
             | None => Ok None
             end;
    Ok (Some {| trc_Type := ty; trc_TimeBasedCanary := canary; trc_TimeBasedLinear := linear |}).

Definition expandMinimumHealthyHostsPerZone (config : gmap string value)
  : result MinimumHealthyHostsPerZone :=
  ty ← asString (mapIndex config "type");
  v ← asInt (mapIndex config "value");
  Ok {| mhhz_Type := ty; mhhz_Value := int32 v |}.

Definition expandZonalConfig (d : ResourceData) : result (option ZonalConfig) :=
  let '(block, ok) := GetOk d "zonal_config" in
  if negb ok then Ok None
  else
    l ← asSlice block;
    e ← index0 l;
    config ← asMap e;
    let first := int64 <$> asIntOk (mapIndex config "first_zone_monitor_duration_in_seconds") in
    perZone ← match config !! "minimum_healthy_hosts_per_zone" with
              | Some minimumHealthyHostsPerZoneType =>
                zl ← asSlice minimumHealthyHostsPerZoneType;
                if (0 <? Z.of_nat (length zl)) then
                  ze ← index0 zl;
                  minimumHealthyHostsPerZoneConfig ← asMap ze;
                  Some <$> expandMinimumHealthyHostsPerZone minimumHealthyHostsPerZoneConfig
                else Ok None
              | None => Ok None
              end;
    let monitor := int64 <$> asIntOk (mapIndex config "monitor_duration_in_seconds") in
    Ok (Some {| FirstZoneMonitorDurationInSeconds := first;
                MinimumHealthyHostsPerZone_ := perZone;
                MonitorDurationInSeconds := monitor |}).

(** ** Flatten: from the API shapes to attribute records *)

Definition flattenMinimumHealthHosts (hosts : option MinimumHealthyHosts) : value :=
  match hosts with
  | None => VMaps (Some [])
  | Some hosts =>
    let item : gmap string value := ∅ in
    let item := <["type" := VString (mhh_Type hosts)]> item in
    let item := <["value" := VInt32 (mhh_Value hosts)]> item in
    VMaps (Some ([] ++ [item]))
  end.

Definition flattenTimeBasedCanary (canary : option TimeBasedCanary) : value :=
  match canary with
  | None => VMaps (Some [])
  | Some canary =>
    let item : gmap string value := ∅ in
    let item := <["interval" := VInt32 (CanaryInterval canary)]> item in
    let item := <["percentage" := VInt32 (CanaryPercentage canary)]> item in
    VMaps (Some ([] ++ [item]))
  end.

Definition flattenTimeBasedLinear (linear : option TimeBasedLinear) : value :=
  match linear with
  | None => VMaps (Some [])
  | Some linear =>
    let item : gmap string value := ∅ in
    let item := <["interval" := VInt32 (LinearInterval linear)]> item in
    let item := <["percentage" := VInt32 (LinearPercentage linear)]> item in
    VMaps (Some ([] ++ [item]))
  end.

Definition flattenTrafficRoutingConfig (config : option TrafficRoutingConfig) : value :=
  match config with
  | None => VMaps (Some [])
  | Some config =>
    let item : gmap string value := ∅ in
    let item := <["type" := VString (trc_Type config)]> item in
    let item := <["time_based_canary" := flattenTimeBasedCanary (trc_TimeBasedCanary config)]> item in
    let item := <["time_based_linear" := flattenTimeBasedLinear (trc_TimeBasedLinear config)]> item in
    VMaps (Some ([] ++ [item]))
  end.

Definition flattenMinimumHealthHostsPerZone (config : option MinimumHealthyHostsPerZone) : value :=
  match config with
  | None => VMaps None
  | Some config =>
    let item : gmap string value := ∅ in
    let item := <["type" := VString (mhhz_Type config)]> item in
    let item := <["value" := VInt32 (mhhz_Value config)]> item in
    VMaps (Some ([] ++ [item]))
  end.

(** Both duration pointers are dereferenced without a nil check. *)
Definition flattenZonalConfig (config : option ZonalConfig) : result value :=
  match config with
  | None => Ok (VMaps None)
  | Some config =>
    let item : gmap string value := ∅ in
    first ← deref (FirstZoneMonitorDurationInSeconds config);
    let item := <["first_zone_monitor_duration_in_seconds" := VInt64Ptr (Some first)]> item in
    let item := <["minimum_healthy_hosts_per_zone" :=
                    flattenMinimumHealthHostsPerZone (MinimumHealthyHostsPerZone_ config)]> item in
    monitor ← deref (MonitorDurationInSeconds config);
    let item := <["monitor_duration_in_seconds" := VInt64Ptr (Some monitor)]> item in
    Ok (VMaps (Some ([] ++ [item])))
  end.

(** ** The client

    A callback is a tree whose nodes are the requests it sends; the response
    decides how it goes on. A client answers the requests from a remote state
    of its own, and [run] records the requests in the order they are sent. *)

Module conn.

Inductive Prog (A : Type) : Type :=
| Ret (a : A)
| Fault (msg : string)
| CreateDeploymentConfig (input : CreateDeploymentConfigInput)
    (k : option CreateDeploymentConfigOutput * option error -> Prog A)
| GetDeploymentConfig (input : GetDeploymentConfigInput)
    (k : option GetDeploymentConfigOutput * option error -> Prog A)
| DeleteDeploymentConfig (input : DeleteDeploymentConfigInput)
    (k : option DeleteDeploymentConfigOutput * option error -> Prog A).
Arguments Ret {A} a.
Arguments Fault {A} msg.
Arguments CreateDeploymentConfig {A} input k.
Arguments GetDeploymentConfig {A} input k.
Arguments DeleteDeploymentConfig {A} input k.

Fixpoint bind {A B} (p : Prog A) (f : A -> Prog B) : Prog B :=
  match p with
  | Ret a => f a
  | Fault msg => Fault msg
  | CreateDeploymentConfig input k => CreateDeploymentConfig input (fun r => bind (k r) f)
  | GetDeploymentConfig input k => GetDeploymentConfig input (fun r => bind (k r) f)
  | DeleteDeploymentConfig input k => DeleteDeploymentConfig input (fun r => bind (k r) f)
  end.

(** A panic in a pure function ends the callback. *)
Definition lift {A} (r : result A) : Prog A :=
  match r with
  | Ok a => Ret a
  | Panic msg => Fault msg
  end.

Inductive Request : Type :=
| ReqCreate (input : CreateDeploymentConfigInput)
| ReqGet (input : GetDeploymentConfigInput)
| ReqDelete (input : DeleteDeploymentConfigInput).

Record Client (R : Type) : Type := {
  onCreate : CreateDeploymentConfigInput -> R ->
             (option CreateDeploymentConfigOutput * option error) * R;
  onGet : GetDeploymentConfigInput -> R ->
          (option GetDeploymentConfigOutput * option error) * R;
  onDelete : DeleteDeploymentConfigInput -> R ->
             (option DeleteDeploymentConfigOutput * option error) * R
}.
Arguments onCreate {R} _ _ _.
Arguments onGet {R} _ _ _.
Arguments onDelete {R} _ _ _.

Record Outcome (R A : Type) : Type := {
  returned : result A;
  requests : list Request;
  remote : R
}.
Arguments returned {R A} _.
Arguments requests {R A} _.
Arguments remote {R A} _.

Definition sent {R A} (q : Request) (o : Outcome R A) : Outcome R A :=
  {| returned := returned o; requests := q :: requests o; remote := remote o |}.

Fixpoint run {R A} (c : Client R) (p : Prog A) (r : R) : Outcome R A :=
  match p with
  | Ret a => {| returned := Ok a; requests := []; remote := r |}
  | Fault msg => {| returned := Panic msg; requests := []; remote := r |}
  | CreateDeploymentConfig input k =>
    let '(resp, r') := onCreate c input r in sent (ReqCreate input) (run c (k resp) r')
  | GetDeploymentConfig input k =>
    let '(resp, r') := onGet c input r in sent (ReqGet input) (run c (k resp) r')
  | DeleteDeploymentConfig input k =>
    let '(resp, r') := onDelete c input r in sent (ReqDelete input) (run c (k resp) r')
  end.

End conn.

Import conn.

#[global] Instance Prog_ret : MRet Prog := @Ret.
#[global] Instance Prog_bind : MBind Prog := fun A B f p => conn.bind p f.

(** ** The lookup and the lifecycle callbacks *)

Definition findDeploymentConfigByName (name : string)
  : Prog (option DeploymentConfigInfo * option error) :=
  let input := {| get_DeploymentConfigName := Some name |} in
  GetDeploymentConfig input (fun '(output, err) =>
    if errs.IsA DeploymentConfigDoesNotExistException err then
      Ret (None, Some (NotFoundError err input))
    else
      match err with
      | Some e => Ret (None, Some e)
      | None =>
        match output with
        | None => Ret (None, Some (tfresource.NewEmptyResultError input))
        | Some output =>
          match DeploymentConfigInfo_ output with
          | None => Ret (None, Some (tfresource.NewEmptyResultError input))
          | Some info => Ret (Some info, None)
          end
        end
      end).

(** The name and the request that create builds from the resource data. *)
Definition createInput (d : ResourceData) : result (string * CreateDeploymentConfigInput) :=
  name ← asString (Get d "deployment_config_name");
  platform ← asString (Get d "compute_platform");
  hosts ← expandMinimumHealthyHosts d;
  routing ← expandTrafficRoutingConfig d;
  zonal ← expandZonalConfig d;
  Ok (name, {| create_ComputePlatform := platform;
               create_DeploymentConfigName := Some name;
               create_MinimumHealthyHosts := hosts;
               create_TrafficRoutingConfig := routing;
               create_ZonalConfig := zonal |}).

Section Callbacks.

(** [err.Error()], the text of an error as [%s] prints it, and
    [tfresource.NotFound], the test that read applies to the lookup's error,
    belong to packages outside this file. *)
Variable ErrorText : error -> string.
Variable NotFound : option error -> bool.

(** The refresh at the end of read: every attribute is overwritten from the
    object that the lookup returned. *)
Definition refresh (deploymentConfig : DeploymentConfigInfo) (d : ResourceData)
  : result (diag.Diagnostics * ResourceData) :=
  let diags : diag.Diagnostics := [] in
  let d := fst (Set' d "compute_platform" (VString (ComputePlatform deploymentConfig))) in
  let d := fst (Set' d "deployment_config_id" (VStringPtr (DeploymentConfigId deploymentConfig))) in
  let d := fst (Set' d "deployment_config_name" (VStringPtr (DeploymentConfigName deploymentConfig))) in
  let '(d, err) := Set' d "minimum_healthy_hosts"
                     (flattenMinimumHealthHosts (MinimumHealthyHosts_ deploymentConfig)) in
  match err with
  | Some e =>
    Ok (sdkdiag.AppendErrorf diags ("setting minimum_healthy_hosts: " +:+ ErrorText e), d)
  | None =>
    let '(d, err) := Set' d "traffic_routing_config"
                       (flattenTrafficRoutingConfig (TrafficRoutingConfig_ deploymentConfig)) in
    match err with
    | Some e =>
      Ok (sdkdiag.AppendErrorf diags ("setting traffic_routing_config: " +:+ ErrorText e), d)
    | None =>
      zonal ← flattenZonalConfig (ZonalConfig_ deploymentConfig);
      let '(d, err) := Set' d "zonal_config" zonal in
      match err with
      | Some e =>
        Ok (sdkdiag.AppendErrorf diags ("setting zonal_config: " +:+ ErrorText e), d)
      | None => Ok (diags, d)
      end
    end
  end.

Definition resourceDeploymentConfigRead (d : ResourceData)
  : Prog (diag.Diagnostics * ResourceData) :=
  let diags : diag.Diagnostics := [] in
  '(deploymentConfig, err) ← findDeploymentConfigByName (Id d);
  if negb (IsNewResource d) && NotFound err then
    let d := SetId d "" in
    Ret (diags, d)
  else
    match err with
    | Some e =>
      Ret (sdkdiag.AppendErrorf diags
             ("reading CodeDeploy Deployment Config (" +:+ Id d +:+ "): " +:+ ErrorText e), d)
    | None =>
      deploymentConfig ← lift (deref deploymentConfig);
      lift (refresh deploymentConfig d)
    end.

Definition resourceDeploymentConfigCreate (d : ResourceData)
  : Prog (diag.Diagnostics * ResourceData) :=
  let diags : diag.Diagnostics := [] in
  '(name, input) ← lift (createInput d);
  '(_, err) ← CreateDeploymentConfig input Ret;
  match err with
  | Some e =>
    Ret (sdkdiag.AppendErrorf diags
           ("creating CodeDeploy Deployment Config (" +:+ name +:+ "): " +:+ ErrorText e), d)
  | None =>
    let d := SetId d name in
    '(diags', d) ← resourceDeploymentConfigRead d;
    Ret (diags ++ diags', d)
  end.

Definition resourceDeploymentConfigDelete (d : ResourceData)
  : Prog (diag.Diagnostics * ResourceData) :=
  let diags : diag.Diagnostics := [] in
  '(_, err) ← DeleteDeploymentConfig {| delete_DeploymentConfigName := Some (Id d) |} Ret;
  match err with
  | Some e =>
    Ret (sdkdiag.AppendErrorf diags
           ("deleting CodeDeploy Deployment Config (" +:+ Id d +:+ "): " +:+ ErrorText e), d)
  | None => Ret (diags, d)
  end.

End Callbacks.

(** ** Configuration validation by the host *)

Module validation.

(** The keys of a dotted address such as [a.0.b]. *)
Fixpoint split (s : string) : list string :=
  match s with
  | EmptyString => [""]
  | String a s' =>
    if Ascii.eqb a (Ascii.ascii_of_nat 46) then "" :: split s'
    else match split s' with
         | h :: t => String a h :: t
         | [] => [String a ""]
         end
  end.

Definition digit (a : Ascii.ascii) : option nat :=
  let n := Ascii.nat_of_ascii a in
  if ((48 <=? n) && (n <=? 57))%nat then Some (n - 48)%nat else None.

Fixpoint parseNat (s : string) (acc : nat) : option nat :=
  match s with
  | EmptyString => Some acc
  | String a s' => d ← digit a; parseNat s' (10 * acc + d)%nat
  end.

Definition parseIndex (s : string) : option nat :=
  match s with
  | EmptyString => None
  | _ => parseNat s 0%nat
  end.

Fixpoint lookupPath (path : list string) (v : value) : option value :=
  match path with
  | [] => Some v
  | p :: rest =>
    match v with
    | VMap m => m !! p ≫= lookupPath rest
    | VSlice l => i ← parseIndex p; l !! i ≫= lookupPath rest
    | _ => None
    end
  end.

(** The raw configuration is the attribute tree as the user wrote it: an
    attribute or a block that is not written is absent from its map. *)
Definition ConfigGet (c : gmap string value) (k : string) : option value :=
  lookupPath (split k) (VMap c).

Definition errorf (message : string) : diag.Diagnostic :=
  {| diag.severity := diag.Error; diag.Summary := message |}.

(** Modelled from the spec: the mutual exclusion that the schema declares with
    [ConflictsWith] is checked by the host's configuration validation, which is
    not part of this file: an attribute that is set is refused when one of the
    addresses it conflicts with is set too. *)
Definition validateConflictingAttributes (k : string) (conflictsWith : list string)
    (c : gmap string value) : diag.Diagnostics :=
  match find (fun ck => bool_decide (is_Some (ConfigGet c ck))) conflictsWith with
  | Some ck => [errorf (k +:+ ": conflicts with " +:+ ck)]
  | None => []
  end.

(** Modelled from the spec: the host's validation of one attribute against its
    schema ("optionality, mutual exclusions, enum validators", cardinality),
    descending into the elements of a block list. *)
Fixpoint validate (c : gmap string value) (s : Schema) (k : string) {struct s}
  : diag.Diagnostics :=
  match s with
  | mkSchema t o r _ _ mx cw _ vf el =>
    match ConfigGet c k with
    | None => if r then [errorf (k +:+ ": required attribute is not set")] else []
    | Some raw =>
      if negb r && negb o then [errorf (k +:+ ": computed attribute cannot be set")]
      else
        match validateConflictingAttributes k cw c with
        | e :: es => e :: es
        | [] =>
          match t with
          | TypeString =>
            match raw with
            | VString x =>
              match vf with
              | Some values =>
                if bool_decide (x ∈ values) then []
                else [errorf (k +:+ ": value is not one of the enumeration")]
              | None => []
              end
            | _ => [errorf (k +:+ ": expected a string")]
            end
          | TypeInt =>
            match raw with
            | VInt n => []
            | _ => [errorf (k +:+ ": expected an integer")]
            end
          | TypeList =>
            match raw with
            | VSlice l =>
              (if ((0 <? mx) && (mx <? length l))%nat
               then [errorf (k +:+ ": too many list items")] else [])
              ++ match el with
                 | Some fields =>
                   flat_map (fun i : nat =>
                     flat_map (fun e : string * Schema =>
                       validate c (snd e) (k +:+ "." +:+ pretty i +:+ "." +:+ fst e)) fields)
                     (seq 0 (length l))
                 | None => []
                 end
            | _ => [errorf (k +:+ ": expected a list")]
            end
          end
        end
    end
  end.

Definition Validate (fields : list (string * Schema)) (c : gmap string value)
  : diag.Diagnostics :=
  flat_map (fun e : string * Schema => validate c (snd e) (fst e)) fields.

End validation.

Import validation.

Section Host.

Variable ErrorText : error -> string.
Variable NotFound : option error -> bool.

(** Modelled from the spec: the host validates the configuration first and
    invokes the create callback, on resource data marked as new, only when
    validation reports no error. *)
Definition hostCreate (c : gmap string value) (d : ResourceData)
  : Prog (diag.Diagnostics * ResourceData) :=
  let diags := Validate resourceDeploymentConfigSchema c in
  if diag.HasError diags then Ret (diags, d)
  else resourceDeploymentConfigCreate ErrorText NotFound (MarkNewResource d).

End Host.

(** ** Configurations

    The configuration that the schema admits: every block is an optional
    singleton, every scalar attribute has its zero value when it is not
    written. *)

Module config.

Record Hosts : Type := {
  h_type : string;
  h_value : Z
}.

Record TimeBased : Type := {
  t_interval : Z;
  t_percentage : Z
}.

Record TrafficRouting : Type := {
  r_type : string;
  r_time_based_canary : option TimeBased;
  r_time_based_linear : option TimeBased
}.

Record Zonal : Type := {
  z_first_zone_monitor_duration_in_seconds : Z;
  z_minimum_healthy_hosts_per_zone : option Hosts;
  z_monitor_duration_in_seconds : Z
}.

Record Config : Type := {
  compute_platform : string;
  deployment_config_name : string;
  minimum_healthy_hosts : option Hosts;
  traffic_routing_config : option TrafficRouting;
  zonal_config : option Zonal
}.

(** A block list as the host's reader returns it. *)
Definition blockList (b : option (gmap string value)) : value :=
  VSlice (match b with Some m => [VMap m] | None => [] end).

Definition hostsAttrs (h : Hosts) : gmap string value :=
  <["type" := VString (h_type h)]> (<["value" := VInt (h_value h)]> ∅).

Definition timeBasedAttrs (t : TimeBased) : gmap string value :=
  <["interval" := VInt (t_interval t)]> (<["percentage" := VInt (t_percentage t)]> ∅).

Definition trafficRoutingAttrs (r : TrafficRouting) : gmap string value :=
  <["type" := VString (r_type r)]>
    (<["time_based_canary" := blockList (timeBasedAttrs <$> r_time_based_canary r)]>
       (<["time_based_linear" := blockList (timeBasedAttrs <$> r_time_based_linear r)]> ∅)).

Definition zonalAttrs (z : Zonal) : gmap string value :=
  <["first_zone_monitor_duration_in_seconds" := VInt (z_first_zone_monitor_duration_in_seconds z)]>
    (<["minimum_healthy_hosts_per_zone" := blockList (hostsAttrs <$> z_minimum_healthy_hosts_per_zone z)]>
       (<["monitor_duration_in_seconds" := VInt (z_monitor_duration_in_seconds z)]> ∅)).

(** The attributes that the callbacks read from the resource data. *)
Definition attributes (cfg : Config) : gmap string value :=
  <["compute_platform" := VString (compute_platform cfg)]>
    (<["deployment_config_id" := VString ""]>
       (<["deployment_config_name" := VString (deployment_config_name cfg)]>
          (<["minimum_healthy_hosts" := blockList (hostsAttrs <$> minimum_healthy_hosts cfg)]>
             (<["traffic_routing_config" := blockList (trafficRoutingAttrs <$> traffic_routing_config cfg)]>
                (<["zonal_config" := blockList (zonalAttrs <$> zonal_config cfg)]> ∅))))).

Definition resourceData (cfg : Config) : ResourceData :=
  {| rd_schema := resourceDeploymentConfigSchema;
     rd_id := "";
     rd_isNew := false;
     rd_attrs := attributes cfg |}.

(** The raw configuration that validation sees: a block that is not written is
    absent. *)
Definition optionalBlock (k : string) (b : option (gmap string value))
    (m : gmap string value) : gmap string value :=
  match b with
  | Some x => <[k := VSlice [VMap x]]> m
  | None => m
  end.

Definition rawTrafficRouting (r : TrafficRouting) : gmap string value :=
  <["type" := VString (r_type r)]>
    (optionalBlock "time_based_canary" (timeBasedAttrs <$> r_time_based_canary r)
       (optionalBlock "time_based_linear" (timeBasedAttrs <$> r_time_based_linear r) ∅)).

Definition rawZonal (z : Zonal) : gmap string value :=
  <["first_zone_monitor_duration_in_seconds" := VInt (z_first_zone_monitor_duration_in_seconds z)]>
    (optionalBlock "minimum_healthy_hosts_per_zone" (hostsAttrs <$> z_minimum_healthy_hosts_per_zone z)
       (<["monitor_duration_in_seconds" := VInt (z_monitor_duration_in_seconds z)]> ∅)).

Definition rawConfig (cfg : Config) : gmap string value :=
  <["compute_platform" := VString (compute_platform cfg)]>
    (<["deployment_config_name" := VString (deployment_config_name cfg)]>
       (optionalBlock "minimum_healthy_hosts" (hostsAttrs <$> minimum_healthy_hosts cfg)
          (optionalBlock "traffic_routing_config" (rawTrafficRouting <$> traffic_routing_config cfg)
             (optionalBlock "zonal_config" (rawZonal <$> zonal_config cfg) ∅)))).

(** Every integer attribute lies in the range of the API field it is copied
    to: 32 bits, and 64 bits for the two durations. *)
Definition hostsFit (h : Hosts) : Prop := is_int32 (h_value h).

Definition timeBasedFit (t : TimeBased) : Prop :=
  is_int32 (t_interval t) ∧ is_int32 (t_percentage t).

Definition trafficRoutingFit (r : TrafficRouting) : Prop :=
  from_option timeBasedFit True (r_time_based_canary r)
  ∧ from_option timeBasedFit True (r_time_based_linear r).

Definition zonalFit (z : Zonal) : Prop :=
  fits 64 (z_first_zone_monitor_duration_in_seconds z)
  ∧ from_option hostsFit True (z_minimum_healthy_hosts_per_zone z)
  ∧ fits 64 (z_monitor_duration_in_seconds z).

Definition fitsAPI (cfg : Config) : Prop :=
  from_option hostsFit True (minimum_healthy_hosts cfg)
  ∧ from_option trafficRoutingFit True (traffic_routing_config cfg)
  ∧ from_option zonalFit True (zonal_config cfg).

End config.

Import config.

(** ** The two directions of the mapping *)

Record Blocks : Type := {
  b_hosts : option MinimumHealthyHosts;
  b_routing : option TrafficRoutingConfig;
  b_zonal : option ZonalConfig
}.

(** The three expansions, in the order in which create performs them. *)
Definition expandBlocks (d : ResourceData) : result Blocks :=
  hosts ← expandMinimumHealthyHosts d;
  routing ← expandTrafficRoutingConfig d;
  zonal ← expandZonalConfig d;
  Ok {| b_hosts := hosts; b_routing := routing; b_zonal := zonal |}.

(** The three flattenings, each written to its attribute as read does, with
    the errors that [d.Set] reported. *)
Definition flattenBlocks (b : Blocks) (d : ResourceData) : result (ResourceData * list error) :=
  let '(d, e1) := Set' d "minimum_healthy_hosts" (flattenMinimumHealthHosts (b_hosts b)) in
  let '(d, e2) := Set' d "traffic_routing_config" (flattenTrafficRoutingConfig (b_routing b)) in
  zonal ← flattenZonalConfig (b_zonal b);
  let '(d, e3) := Set' d "zonal_config" zonal in
  Ok (d, option_list e1 ++ option_list e2 ++ option_list e3).

(** The values of the API shapes are in the range of their types, and a zonal
    config carries both durations. *)
Definition hostsWf (h : MinimumHealthyHosts) : Prop := is_int32 (mhh_Value h).

Definition canaryWf (c : TimeBasedCanary) : Prop :=
  is_int32 (CanaryInterval c) ∧ is_int32 (CanaryPercentage c).

Definition linearWf (l : TimeBasedLinear) : Prop :=
  is_int32 (LinearInterval l) ∧ is_int32 (LinearPercentage l).

Definition routingWf (r : TrafficRoutingConfig) : Prop :=
  from_option canaryWf True (trc_TimeBasedCanary r)
  ∧ from_option linearWf True (trc_TimeBasedLinear r).

Definition perZoneWf (z : MinimumHealthyHostsPerZone) : Prop := is_int32 (mhhz_Value z).

Definition zonalWf (z : ZonalConfig) : Prop :=
  (∃ first, FirstZoneMonitorDurationInSeconds z = Some first ∧ fits 64 first)
  ∧ from_option perZoneWf True (MinimumHealthyHostsPerZone_ z)
  ∧ (∃ monitor, MonitorDurationInSeconds z = Some monitor ∧ fits 64 monitor).

Definition blocksWf (b : Blocks) : Prop :=
  from_option hostsWf True (b_hosts b)
  ∧ from_option routingWf True (b_routing b)
  ∧ from_option zonalWf True (b_zonal b).

(** The API shapes that a configuration denotes: the strings are copied and
    the integers converted to the width of their field. *)
Definition apiHosts (h : Hosts) : MinimumHealthyHosts :=
  {| mhh_Type := h_type h; mhh_Value := int32 (h_value h) |}.

Definition apiCanary (t : TimeBased) : TimeBasedCanary :=
  {| CanaryInterval := int32 (t_interval t); CanaryPercentage := int32 (t_percentage t) |}.

Definition apiLinear (t : TimeBased) : TimeBasedLinear :=
  {| LinearInterval := int32 (t_interval t); LinearPercentage := int32 (t_percentage t) |}.

Definition apiRouting (r : TrafficRouting) : TrafficRoutingConfig :=
  {| trc_Type := r_type r;
     trc_TimeBasedCanary := apiCanary <$> r_time_based_canary r;
     trc_TimeBasedLinear := apiLinear <$> r_time_based_linear r |}.

Definition apiPerZone (h : Hosts) : MinimumHealthyHostsPerZone :=
  {| mhhz_Type := h_type h; mhhz_Value := int32 (h_value h) |}.

Definition apiZonal (z : Zonal) : ZonalConfig :=
  {| FirstZoneMonitorDurationInSeconds := Some (int64 (z_first_zone_monitor_duration_in_seconds z));
     MinimumHealthyHostsPerZone_ := apiPerZone <$> z_minimum_healthy_hosts_per_zone z;
     MonitorDurationInSeconds := Some (int64 (z_monitor_duration_in_seconds z)) |}.

Definition apiBlocks (cfg : Config) : Blocks :=
  {| b_hosts := apiHosts <$> minimum_healthy_hosts cfg;
     b_routing := apiRouting <$> traffic_routing_config cfg;
     b_zonal := apiZonal <$> zonal_config cfg |}.

(** The configuration blocks that the API shapes are stored as. *)
Definition cfgHosts (x : MinimumHealthyHosts) : Hosts :=
  {| h_type := mhh_Type x; h_value := mhh_Value x |}.

Definition cfgCanary (x : TimeBasedCanary) : TimeBased :=
  {| t_interval := CanaryInterval x; t_percentage := CanaryPercentage x |}.

Definition cfgLinear (x : TimeBasedLinear) : TimeBased :=
  {| t_interval := LinearInterval x; t_percentage := LinearPercentage x |}.

Definition cfgRouting (x : TrafficRoutingConfig) : TrafficRouting :=
  {| r_type := trc_Type x;
     r_time_based_canary := cfgCanary <$> trc_TimeBasedCanary x;
     r_time_based_linear := cfgLinear <$> trc_TimeBasedLinear x |}.

Definition cfgPerZone (x : MinimumHealthyHostsPerZone) : Hosts :=
  {| h_type := mhhz_Type x; h_value := mhhz_Value x |}.

Definition cfgZonal (x : ZonalConfig) : Zonal :=
  {| z_first_zone_monitor_duration_in_seconds := default 0 (FirstZoneMonitorDurationInSeconds x);
     z_minimum_healthy_hosts_per_zone := cfgPerZone <$> MinimumHealthyHostsPerZone_ x;
     z_monitor_duration_in_seconds := default 0 (MonitorDurationInSeconds x) |}.

(** Whether a zonal config, if there is one, carries both durations. *)
Definition durationsPresent (config : option ZonalConfig) : bool :=
  match config with
  | None => true
  | Some z =>
    match FirstZoneMonitorDurationInSeconds z, MonitorDurationInSeconds z with
    | Some _, Some _ => true
    | _, _ => false
    end
  end.

(** The six flatten functions, and what each returns for a nil pointer. *)
Inductive flattenFunction : Type :=
| FlattenMinimumHealthHosts
| FlattenTrafficRoutingConfig
| FlattenTimeBasedCanary
| FlattenTimeBasedLinear
| FlattenZonalConfig
| FlattenMinimumHealthHostsPerZone.

Definition flattenAbsent (f : flattenFunction) : result value :=
  match f with
  | FlattenMinimumHealthHosts => Ok (flattenMinimumHealthHosts None)
  | FlattenTrafficRoutingConfig => Ok (flattenTrafficRoutingConfig None)
  | FlattenTimeBasedCanary => Ok (flattenTimeBasedCanary None)
  | FlattenTimeBasedLinear => Ok (flattenTimeBasedLinear None)
  | FlattenZonalConfig => flattenZonalConfig None
  | FlattenMinimumHealthHostsPerZone => Ok (flattenMinimumHealthHostsPerZone None)
  end.

(** The functions that flatten the zonal config and the block nested in it. *)
Definition onZonalPath (f : flattenFunction) : bool :=
  match f with
  | FlattenZonalConfig | FlattenMinimumHealthHostsPerZone => true
  | _ => false
  end.

(** ** Concrete instances, for the examples *)

Module example.

(** A remote that keeps the deployment configs by name. *)
Definition stored (input : CreateDeploymentConfigInput) (name : string) : DeploymentConfigInfo :=
  {| ComputePlatform := create_ComputePlatform input;
     DeploymentConfigId := Some ("id-" +:+ name);
     DeploymentConfigName := Some name;
     MinimumHealthyHosts_ := create_MinimumHealthyHosts input;
     TrafficRoutingConfig_ := create_TrafficRoutingConfig input;
     ZonalConfig_ := create_ZonalConfig input |}.

Definition memoryClient : Client (gmap string DeploymentConfigInfo) :=
  {| onCreate := fun input r =>
       match create_DeploymentConfigName input with
       | None =>
         ((None, Some (OperationError (Some DeploymentConfigNameRequiredException)
                         "deployment configuration name is required")), r)
       | Some name =>
         match r !! name with
         | Some _ =>
           ((None, Some (OperationError (Some DeploymentConfigAlreadyExistsException)
                           "deployment configuration already exists")), r)
         | None =>
           ((Some {| created_DeploymentConfigId := Some ("id-" +:+ name) |}, None),
            <[name := stored input name]> r)
         end
       end;
     onGet := fun input r =>
       match get_DeploymentConfigName input ≫= fun name => r !! name with
       | Some info => ((Some {| DeploymentConfigInfo_ := Some info |}, None), r)
       | None =>
         ((None, Some (OperationError (Some DeploymentConfigDoesNotExistException)
                         "no deployment configuration found")), r)
       end;
     onDelete := fun input r =>
       match delete_DeploymentConfigName input
             ≫= fun name => (fun _ => name) <$> r !! name with
       | Some name => ((Some DeleteDeploymentConfigOutput_, None), delete name r)
       | None =>
         ((None, Some (OperationError (Some DeploymentConfigDoesNotExistException)
                         "no deployment configuration found")), r)
       end |}.

(** A remote that is out of reach. *)
Definition offlineClient : Client unit :=
  {| onCreate := fun _ r => ((None, Some (OperationError None "connection refused")), r);
     onGet := fun _ r => ((None, Some (OperationError None "connection refused")), r);
     onDelete := fun _ r => ((None, Some (OperationError None "connection refused")), r) |}.

Definition errorText (e : error) : string :=
  match e with
  | OperationError _ message => message
  | NotFoundError _ _ => "couldn't find resource"
  | EmptyResultError _ => "empty result"
  | FieldWriteError key => "Invalid address to set: " +:+ key
  end.

Definition notFound (err : option error) : bool :=
  match err with
  | Some (NotFoundError _ _) => true
  | _ => false
  end.

Definition fleet75 : MinimumHealthyHosts :=
  {| mhh_Type := "FLEET_PERCENT"; mhh_Value := 75 |}.

Definition canaryConfig : Config :=
  {| compute_platform := "Lambda";
     deployment_config_name := "N";
     minimum_healthy_hosts := None;
     traffic_routing_config :=
       Some {| r_type := "TimeBasedCanary";
               r_time_based_canary := Some {| t_interval := 10; t_percentage := 25 |};
               r_time_based_linear := None |};
     zonal_config := None |}.

Definition serverConfig : Config :=
  {| compute_platform := "Server";
     deployment_config_name := "N";
     minimum_healthy_hosts := Some {| h_type := "FLEET_PERCENT"; h_value := 75 |};
     traffic_routing_config := None;
     zonal_config :=
       Some {| z_first_zone_monitor_duration_in_seconds := 60;
               z_minimum_healthy_hosts_per_zone := Some {| h_type := "HOST_COUNT"; h_value := 1 |};
               z_monitor_duration_in_seconds := 30 |} |}.

(** A value that the schema admits and that does not fit 32 bits. *)
Definition wideConfig : Config :=
  {| compute_platform := "Server";
     deployment_config_name := "N";
     minimum_healthy_hosts := Some {| h_type := "HOST_COUNT"; h_value := 2147483648 |};
     traffic_routing_config := None;
     zonal_config := None |}.

(** Both sub-blocks of the traffic routing written. *)
Definition bothConfig : Config :=
  {| compute_platform := "Lambda";
     deployment_config_name := "N";
     minimum_healthy_hosts := None;
     traffic_routing_config :=
       Some {| r_type := "TimeBasedCanary";
               r_time_based_canary := Some {| t_interval := 10; t_percentage := 25 |};
               r_time_based_linear := Some {| t_interval := 5; t_percentage := 10 |} |};
     zonal_config := None |}.


(** A zonal config as the API may return it, without its first duration. *)
Definition bareZonalBlocks : Blocks :=
  {| b_hosts := None;
     b_routing := None;
     b_zonal := Some {| FirstZoneMonitorDurationInSeconds := None;
                        MinimumHealthyHostsPerZone_ := None;
                        MonitorDurationInSeconds := Some 30 |} |}.

End example.

(** ** The schema as a whole *)

(** Every schema of the resource with its address: an attribute, and under
    index 0 the attributes of a nested block. *)
Fixpoint attributesUnder (k : string) (s : Schema) : list (string * Schema) :=
  (k, s) ::
  match s with
  | mkSchema _ _ _ _ _ _ _ _ _ (Some fields) =>
    flat_map (fun e : string * Schema => attributesUnder (k +:+ ".0." +:+ fst e) (snd e)) fields
  | _ => []
  end.

Definition allAttributes (fields : list (string * Schema)) : list (string * Schema) :=
  flat_map (fun e : string * Schema => attributesUnder (fst e) (snd e)) fields.

(** A block list is an optional singleton with a nested resource. *)
Definition singletonBlock (s : Schema) : bool :=
  match s_Type s with
  | TypeList => s_Optional s && negb (s_Required s) && Nat.eqb (s_MaxItems s) 1
                && bool_decide (is_Some (s_Elem s))
  | _ => true
  end.

(** An attribute either forces a new resource or is computed only. *)
Definition immutable (s : Schema) : bool :=
  s_ForceNew s || (s_Computed s && negb (s_Optional s) && negb (s_Required s)).

(** Every address an attribute conflicts with is an attribute of the resource
    that conflicts with it in turn. *)
Definition conflictsSymmetric (all : list (string * Schema)) (k : string) (s : Schema) : bool :=
  forallb (fun ck =>
    match lookupSchema all ck with
    | Some s' => bool_decide (k ∈ s_ConflictsWith s')
    | None => false
    end) (s_ConflictsWith s).

(** The attribute names of the block at an address. *)
Definition blockNames (k : string) : option (gset string) :=
  s ← lookupSchema (allAttributes resourceDeploymentConfigSchema) k;
  fields ← s_Elem s;
  Some (list_to_set (fst <$> fields)).

(** Further instances, for the examples. *)
Module more.

(** Resource data as an import leaves it: the identifier and no attribute. *)
Definition importedData : ResourceData :=
  {| rd_schema := resourceDeploymentConfigSchema;
     rd_id := "N";
     rd_isNew := false;
     rd_attrs := ∅ |}.

(** A remote that accepts the create call and then cannot be read. *)
Definition writeOnlyClient : Client unit :=
  {| onCreate := fun _ r => ((Some {| created_DeploymentConfigId := Some "id" |}, None), r);
     onGet := fun _ r => ((None, Some (OperationError None "request timed out")), r);
     onDelete := fun _ r => ((Some DeleteDeploymentConfigOutput_, None), r) |}.

(** A deployment config whose zonal config lacks its first duration. *)
Definition bareInfo : DeploymentConfigInfo :=
  {| ComputePlatform := "Server";
     DeploymentConfigId := Some "id-N";
     DeploymentConfigName := Some "N";
     MinimumHealthyHosts_ := None;
     TrafficRoutingConfig_ := None;
     ZonalConfig_ := b_zonal example.bareZonalBlocks |}.

(** What the remote of [example.memoryClient] holds once [example.serverConfig]
    is created. *)
Definition serverInfo : DeploymentConfigInfo :=
  {| ComputePlatform := "Server";
     DeploymentConfigId := Some "id-N";
     DeploymentConfigName := Some "N";
     MinimumHealthyHosts_ := b_hosts (apiBlocks example.serverConfig);
     TrafficRoutingConfig_ := b_routing (apiBlocks example.serverConfig);
     ZonalConfig_ := b_zonal (apiBlocks example.serverConfig) |}.

End more.

(** * Properties *)

(** ** Integers *)

Lemma int32_fits (n : Z) : is_int32 n → int32 n = n.
Proof.
  unfold is_int32, fits, int32, wrap. intros H.
  change (2 ^ (32 - 1)) with 2147483648 in *. change (2 ^ 32) with 4294967296.
  rewrite Z.mod_small; lia.
Qed.

Lemma int64_fits (n : Z) : fits 64 n → int64 n = n.
Proof.
  unfold fits, int64, wrap. intros H.
  change (2 ^ (64 - 1)) with 9223372036854775808 in *.
  change (2 ^ 64) with 18446744073709551616.
  rewrite Z.mod_small; lia.
Qed.

(** ** Flatten *)

(** C9: flattening a present minimum_healthy_hosts with type FLEET_PERCENT and
    value 75 returns a sequence of exactly one record, whose "type" is
    "FLEET_PERCENT" and whose "value" is 75. *)
Theorem flatten_fleet_percent_75 :
  flattenMinimumHealthHosts (Some {| mhh_Type := "FLEET_PERCENT"; mhh_Value := 75 |})
  = VMaps (Some [ <["type" := VString "FLEET_PERCENT"]> (<["value" := VInt32 75]> ∅) ]).
Proof. reflexivity. Qed.

(** C2: for a nil pointer, the flatten functions of the zonal path (the zonal
    config and the per-zone block nested in it) return the nil slice, and
    every other flatten function returns the empty slice; none panics. *)
Theorem flatten_absent (f : flattenFunction) :
  flattenAbsent f = Ok (if onZonalPath f then VMaps None else VMaps (Some [])).
Proof. destruct f; reflexivity. Qed.

(** C10: flattenZonalConfig returns exactly when its argument is nil or
    carries both durations; with a duration missing it panics on the nil
    dereference, whatever the per-zone block is, while a missing per-zone
    block is flattened to nil without a dereference. *)
Theorem flattenZonalConfig_total_iff_durations (config : option ZonalConfig)
    (perZone : option MinimumHealthyHostsPerZone) (first monitor : Z) (other : option Z) :
  isOk (flattenZonalConfig config) = durationsPresent config
  ∧ flattenZonalConfig (Some {| FirstZoneMonitorDurationInSeconds := None;
                                MinimumHealthyHostsPerZone_ := perZone;
                                MonitorDurationInSeconds := other |})
    = Panic "invalid memory address or nil pointer dereference"
  ∧ flattenZonalConfig (Some {| FirstZoneMonitorDurationInSeconds := Some first;
                                MinimumHealthyHostsPerZone_ := perZone;
                                MonitorDurationInSeconds := None |})
    = Panic "invalid memory address or nil pointer dereference"
  ∧ flattenZonalConfig (Some {| FirstZoneMonitorDurationInSeconds := Some first;
                                MinimumHealthyHostsPerZone_ := None;
                                MonitorDurationInSeconds := Some monitor |})
    = Ok (VMaps (Some [ <["first_zone_monitor_duration_in_seconds" := VInt64Ptr (Some first)]>
                          (<["minimum_healthy_hosts_per_zone" := VMaps None]>
                             (<["monitor_duration_in_seconds" := VInt64Ptr (Some monitor)]> ∅)) ]))
  ∧ flattenMinimumHealthHostsPerZone None = VMaps None.
Proof.
  split_and!; try reflexivity.
  by destruct config as [[[a|] pz [b|]]|].
Qed.

(** ** Expand, on resource data that holds a configuration *)

Lemma expand_hosts (d : ResourceData) (o : option Hosts) :
  Get d "minimum_healthy_hosts" = blockList (hostsAttrs <$> o) →
  expandMinimumHealthyHosts d = Ok (apiHosts <$> o).
Proof.
  intros H. unfold expandMinimumHealthyHosts, GetOk. rewrite H.
  destruct o as [[ty v]|]; reflexivity.
Qed.

Lemma expand_routing (d : ResourceData) (o : option TrafficRouting) :
  Get d "traffic_routing_config" = blockList (trafficRoutingAttrs <$> o) →
  expandTrafficRoutingConfig d = Ok (apiRouting <$> o).
Proof.
  intros H. unfold expandTrafficRoutingConfig, GetOk. rewrite H.
  destruct o as [[ty [[ci cp]|] [[li lp]|]]|]; reflexivity.
Qed.

Lemma expand_zonal (d : ResourceData) (o : option Zonal) :
  Get d "zonal_config" = blockList (zonalAttrs <$> o) →
  expandZonalConfig d = Ok (apiZonal <$> o).
Proof.
  intros H. unfold expandZonalConfig, GetOk. rewrite H.
  destruct o as [[f [[ty v]|] m]|]; reflexivity.
Qed.

(** ** Flatten, written through the schema *)

Lemma write_hosts (x : option MinimumHealthyHosts) :
  schemaOf "minimum_healthy_hosts" ≫= (λ s, writeField s (flattenMinimumHealthHosts x))
  = Some (blockList (hostsAttrs <$> (cfgHosts <$> x))).
Proof. destruct x as [[ty v]|]; reflexivity. Qed.

Lemma write_routing (x : option TrafficRoutingConfig) :
  schemaOf "traffic_routing_config" ≫= (λ s, writeField s (flattenTrafficRoutingConfig x))
  = Some (blockList (trafficRoutingAttrs <$> (cfgRouting <$> x))).
Proof. destruct x as [[ty [[ci cp]|] [[li lp]|]]|]; reflexivity. Qed.

Lemma write_zonal (x : option ZonalConfig) :
  durationsPresent x = true →
  ∃ v, flattenZonalConfig x = Ok v
       ∧ schemaOf "zonal_config" ≫= (λ s, writeField s v)
         = Some (blockList (zonalAttrs <$> (cfgZonal <$> x))).
Proof.
  destruct x as [[[a|] pz [b|]]|]; simpl; try done; intros _.
  - eexists. split; [reflexivity|]. destruct pz as [[ty v]|]; reflexivity.
  - eexists. split; reflexivity.
Qed.

Lemma Set'_written (d : ResourceData) (k : string) (v v' : value) :
  rd_schema d = resourceDeploymentConfigSchema →
  schemaOf k ≫= (λ s, writeField s v) = Some v' →
  Set' d k v
  = ({| rd_schema := rd_schema d; rd_id := rd_id d; rd_isNew := rd_isNew d;
        rd_attrs := <[k := v']> (rd_attrs d) |}, None).
Proof.
  intros Hs Hw. unfold Set'. rewrite Hs. unfold schemaOf in Hw.
  destruct (lookupSchema resourceDeploymentConfigSchema k) as [s|]; [|done].
  simpl in Hw. by rewrite Hw.
Qed.


Lemma Id_Set' (d : ResourceData) (k : string) (v : value) : Id (Set' d k v).1 = Id d.
Proof.
  unfold Set'. destruct (lookupSchema _ k) as [s|]; [|done].
  by destruct (writeField s v).
Qed.

(** ** The two typed views are inverse to each other within the ranges *)

Lemma cfg_api_hosts (o : option Hosts) :
  from_option hostsFit True o → cfgHosts <$> (apiHosts <$> o) = o.
Proof.
  destruct o as [[ty v]|]; [|done]. unfold hostsFit; simpl. intros H.
  unfold cfgHosts, apiHosts; simpl. by rewrite int32_fits.
Qed.

Lemma cfg_api_routing (o : option TrafficRouting) :
  from_option trafficRoutingFit True o → cfgRouting <$> (apiRouting <$> o) = o.
Proof.
  destruct o as [[ty c l]|]; [|done]. unfold trafficRoutingFit; simpl. intros [Hc Hl].
  unfold cfgRouting, apiRouting; simpl. do 2 f_equal.
  - destruct c as [[i p]|]; [|done]. destruct Hc as [Hi Hp]; simpl in *.
    unfold cfgCanary, apiCanary; simpl. by rewrite !int32_fits.
  - destruct l as [[i p]|]; [|done]. destruct Hl as [Hi Hp]; simpl in *.
    unfold cfgLinear, apiLinear; simpl. by rewrite !int32_fits.
Qed.

Lemma cfg_api_zonal (o : option Zonal) :
  from_option zonalFit True o → cfgZonal <$> (apiZonal <$> o) = o.
Proof.
  destruct o as [[f pz m]|]; [|done]. unfold zonalFit; simpl. intros (Hf & Hz & Hm).
  unfold cfgZonal, apiZonal; simpl. rewrite !int64_fits by done. do 2 f_equal.
  destruct pz as [[ty v]|]; [|done]. unfold hostsFit in Hz; simpl in *.
  unfold cfgPerZone, apiPerZone; simpl. by rewrite int32_fits.
Qed.

Lemma api_cfg_hosts (x : option MinimumHealthyHosts) :
  from_option hostsWf True x → apiHosts <$> (cfgHosts <$> x) = x.
Proof.
  destruct x as [[ty v]|]; [|done]. unfold hostsWf; simpl. intros H.
  unfold cfgHosts, apiHosts; simpl. by rewrite int32_fits.
Qed.

Lemma api_cfg_routing (x : option TrafficRoutingConfig) :
  from_option routingWf True x → apiRouting <$> (cfgRouting <$> x) = x.
Proof.
  destruct x as [[ty c l]|]; [|done]. unfold routingWf; simpl. intros [Hc Hl].
  unfold cfgRouting, apiRouting; simpl. do 2 f_equal.
  - destruct c as [[i p]|]; [|done]. destruct Hc as [Hi Hp]; simpl in *.
    unfold cfgCanary, apiCanary; simpl. by rewrite !int32_fits.
  - destruct l as [[i p]|]; [|done]. destruct Hl as [Hi Hp]; simpl in *.
    unfold cfgLinear, apiLinear; simpl. by rewrite !int32_fits.
Qed.

Lemma api_cfg_zonal (x : option ZonalConfig) :
  from_option zonalWf True x → apiZonal <$> (cfgZonal <$> x) = x.
Proof.
  destruct x as [[f pz m]|]; [|done]. unfold zonalWf; simpl.
  intros ((a & -> & Ha) & Hz & (b & -> & Hb)).
  unfold cfgZonal, apiZonal; simpl. rewrite !int64_fits by done. do 2 f_equal.
  destruct pz as [[ty v]|]; [|done]. unfold perZoneWf in Hz; simpl in *.
  unfold cfgPerZone, apiPerZone; simpl. by rewrite int32_fits.
Qed.

Lemma apiZonal_durations (o : option Zonal) : durationsPresent (apiZonal <$> o) = true.
Proof. by destruct o. Qed.

Lemma zonalWf_durations (x : option ZonalConfig) :
  from_option zonalWf True x → durationsPresent x = true.
Proof.
  destruct x as [z|]; simpl; [|done].
  intros ((a & Ha & _) & _ & (b & Hb & _)). by rewrite Ha, Hb.
Qed.

(** ** The round trip *)



(** ** Running a callback against a client *)

Lemma run_bind {R A B} (c : Client R) (p : Prog A) (f : A → Prog B) (r : R) :
  run c (p ≫= f) r =
  match returned (run c p r) with
  | Ok a =>
    let o := run c (f a) (remote (run c p r)) in
    {| returned := returned o;
       requests := requests (run c p r) ++ requests o;
       remote := remote o |}
  | Panic msg =>
    {| returned := Panic msg; requests := requests (run c p r); remote := remote (run c p r) |}
  end.
Proof.
  unfold mbind, Prog_bind.
  revert r. induction p as [a|msg|input k IH|input k IH|input k IH]; intros r; simpl.
  - by destruct (run c (f a) r).
  - done.
  - destruct (onCreate c input r) as [resp r'].
    rewrite IH. by destruct (run c (k resp) r') as [[?|?] ? ?].
  - destruct (onGet c input r) as [resp r'].
    rewrite IH. by destruct (run c (k resp) r') as [[?|?] ? ?].
  - destruct (onDelete c input r) as [resp r'].
    rewrite IH. by destruct (run c (k resp) r') as [[?|?] ? ?].
Qed.

Section Lifecycle.

Context (ErrorText : error → string) (NotFound : option error → bool).
Context {R : Type} (c : Client R).

#[local] Abbreviation read := (resourceDeploymentConfigRead ErrorText NotFound).
#[local] Abbreviation create := (resourceDeploymentConfigCreate ErrorText NotFound).
#[local] Abbreviation delete := (resourceDeploymentConfigDelete ErrorText).

(** C7: delete sends exactly one request, the delete request for the resource
    identifier; an error of that call, whichever it is, becomes one error
    diagnostic whose text names the identifier and ends with the error's own
    text, and without an error there is no diagnostic. *)
Theorem delete_sends_one_request (d : ResourceData) (r : R) :
  let input := {| delete_DeploymentConfigName := Some (Id d) |} in
  let response := onDelete c input r in
  run c (delete d) r
  = {| returned :=
         Ok (match response.1.2 with
             | Some e =>
               [ {| diag.severity := diag.Error;
                    diag.Summary := "deleting CodeDeploy Deployment Config (" +:+ Id d
                                    +:+ "): " +:+ ErrorText e |} ]
             | None => []
             end, d);
       requests := [ReqDelete input];
       remote := response.2 |}.
Proof.
  simpl. destruct (onDelete c _ r) as [[out [e|]] r']; reflexivity.
Qed.

Lemma refresh_Id (info : DeploymentConfigInfo) (d d' : ResourceData)
    (diags : diag.Diagnostics) :
  refresh ErrorText info d = Ok (diags, d') → Id d' = Id d.
Proof.
  unfold refresh.
  set (d1 := (Set' d "compute_platform" _).1).
  set (d2 := (Set' d1 "deployment_config_id" _).1).
  set (d3 := (Set' d2 "deployment_config_name" _).1).
  assert (Id d3 = Id d) as H3 by (unfold d3, d2, d1; by rewrite !Id_Set').
  pose proof (Id_Set' d3 "minimum_healthy_hosts"
                (flattenMinimumHealthHosts (MinimumHealthyHosts_ info))) as H4.
  destruct (Set' d3 "minimum_healthy_hosts" _) as [d4 [e|]]; simpl in H4.
  { intros [= _ <-]. congruence. }
  pose proof (Id_Set' d4 "traffic_routing_config"
                (flattenTrafficRoutingConfig (TrafficRoutingConfig_ info))) as H5.
  destruct (Set' d4 "traffic_routing_config" _) as [d5 [e|]]; simpl in H5.
  { intros [= _ <-]. congruence. }
  destruct (flattenZonalConfig (ZonalConfig_ info)) as [zonal|msg]; [|done].
  change (Ok zonal ≫= ?f) with (f zonal). cbv beta.
  pose proof (Id_Set' d5 "zonal_config" zonal) as H6.
  destruct (Set' d5 "zonal_config" zonal) as [d6 [e|]]; simpl in H6;
    intros [= _ <-]; congruence.
Qed.

#[local] Arguments refresh : simpl never.

Lemma run_read (d : ResourceData) (r : R) :
  let input := {| get_DeploymentConfigName := Some (Id d) |} in
  requests (run c (read d) r) = [ReqGet input]
  ∧ remote (run c (read d) r) = (onGet c input r).2.
Proof.
  unfold resourceDeploymentConfigRead, findDeploymentConfigByName, mbind, Prog_bind. simpl.
  destruct (onGet c _ r) as [[out err] r']; simpl.
  destruct (errs.IsA _ err); simpl.
  { by destruct (negb (IsNewResource d) && NotFound _). }
  destruct err as [e|]; simpl.
  { by destruct (negb (IsNewResource d) && NotFound _). }
  destruct out as [[[info|]]|]; simpl;
    try by destruct (negb (IsNewResource d) && NotFound _).
  destruct (negb (IsNewResource d) && NotFound _); [done|]. simpl.
  by destruct (refresh ErrorText info d).
Qed.

Lemma read_new_Id (d d' : ResourceData) (r : R) (diags : diag.Diagnostics) :
  IsNewResource d = true →
  returned (run c (read d) r) = Ok (diags, d') → Id d' = Id d.
Proof.
  intros Hnew.
  unfold resourceDeploymentConfigRead, findDeploymentConfigByName, mbind, Prog_bind. simpl.
  rewrite Hnew. simpl.
  destruct (onGet c _ r) as [[out err] r']; simpl.
  destruct (errs.IsA _ err); simpl.
  { by intros [= _ <-]. }
  destruct err as [e|]; simpl.
  { by intros [= _ <-]. }
  destruct out as [[[info|]]|]; simpl; try by intros [= _ <-].
  destruct (refresh ErrorText info d) as [[diags0 d0]|msg] eqn:Hr; simpl; [|done].
  intros [= _ <-]. by eapply refresh_Id.
Qed.

Lemma read_wraps_error (d : ResourceData) (r : R) (e : error) :
  (onGet c {| get_DeploymentConfigName := Some (Id d) |} r).1.2 = Some e →
  errs.IsA DeploymentConfigDoesNotExistException (Some e) = false →
  IsNewResource d || negb (NotFound (Some e)) = true →
  returned (run c (read d) r)
  = Ok (sdkdiag.AppendErrorf []
          ("reading CodeDeploy Deployment Config (" +:+ Id d +:+ "): " +:+ ErrorText e), d).
Proof.
  intros He HA Hnf.
  unfold resourceDeploymentConfigRead, findDeploymentConfigByName, mbind, Prog_bind. simpl.
  destruct (onGet c _ r) as [[out err] r']. simpl in He. subst err.
  simpl. simpl in HA. rewrite HA. simpl. unfold IsNewResource in *.
  destruct (rd_isNew d); simpl in *; [done|].
  apply negb_true_iff in Hnf. by rewrite Hnf.
Qed.

(** C3: when the lookup of a read meets the not-found exception of the
    service, a read of a resource that is not new clears the identifier and
    returns no diagnostic, and a read of a new resource leaves the resource
    data as it is and returns one error diagnostic that wraps the not-found
    signal. Either way the read sends the one get request. *)
Theorem read_not_found (d : ResourceData) (r : R) :
  (∀ e q, NotFound (Some (NotFoundError e q)) = true) →
  let input := {| get_DeploymentConfigName := Some (Id d) |} in
  let response := onGet c input r in
  errs.IsA DeploymentConfigDoesNotExistException response.1.2 = true →
  let o := run c (read d) r in
  requests o = [ReqGet input]
  ∧ (IsNewResource d = false → returned o = Ok ([], SetId d ""))
  ∧ (IsNewResource d = true →
     returned o
     = Ok ([ {| diag.severity := diag.Error;
                diag.Summary := "reading CodeDeploy Deployment Config (" +:+ Id d +:+ "): "
                                +:+ ErrorText (NotFoundError response.1.2 input) |} ], d)).
Proof.
  intros HNF input response HA o. split; [apply run_read|].
  subst o response input.
  unfold resourceDeploymentConfigRead, findDeploymentConfigByName, mbind, Prog_bind. simpl.
  destruct (onGet c _ r) as [[out err] r']; simpl in *.
  rewrite HA. simpl. rewrite HNF.
  split; intros ->; reflexivity.
Qed.

(** C6: the lookup sends one get request for the name. The not-found exception
    of the service, and only it, is turned into the not-found signal that
    carries the error and the request; any other error is returned as it is,
    and read then reports it in a diagnostic that names the operation and the
    resource; a response with neither an error nor a payload gives the
    empty-result error; a payload is returned as found. *)
Theorem lookup_classifies (name : string) (r : R) :
  let input := {| get_DeploymentConfigName := Some name |} in
  let response := onGet c input r in
  let output := response.1.1 in
  let err := response.1.2 in
  let o := run c (findDeploymentConfigByName name) r in
  requests o = [ReqGet input] ∧ remote o = response.2
  ∧ (errs.IsA DeploymentConfigDoesNotExistException err = true →
     returned o = Ok (None, Some (NotFoundError err input)))
  ∧ (∀ e, errs.IsA DeploymentConfigDoesNotExistException err = false → err = Some e →
     returned o = Ok (None, Some e)
     ∧ ∀ d, Id d = name → IsNewResource d || negb (NotFound (Some e)) = true →
         returned (run c (read d) r)
         = Ok ([ {| diag.severity := diag.Error;
                    diag.Summary := "reading CodeDeploy Deployment Config (" +:+ name +:+ "): "
                                    +:+ ErrorText e |} ], d))
  ∧ (err = None → output ≫= DeploymentConfigInfo_ = None →
     returned o = Ok (None, Some (EmptyResultError input)))
  ∧ (∀ info, err = None → output ≫= DeploymentConfigInfo_ = Some info →
     returned o = Ok (Some info, None)).
Proof.
  intros input response output err o.
  assert (∀ e, errs.IsA DeploymentConfigDoesNotExistException err = false → err = Some e →
            ∀ d, Id d = name → IsNewResource d || negb (NotFound (Some e)) = true →
            returned (run c (read d) r)
            = Ok (sdkdiag.AppendErrorf []
                    ("reading CodeDeploy Deployment Config (" +:+ name +:+ "): "
                     +:+ ErrorText e), d)) as Hwrap.
  { intros e HA He d <- Hnf. subst err response input.
    rewrite He in HA. by apply read_wraps_error. }
  revert Hwrap. subst o err output response input. simpl.
  destruct (onGet c _ r) as [[out err] r']; simpl. intros Hwrap.
  destruct err as [e|]; simpl.
  - destruct (errs.IsA_chain _ e) eqn:HA; simpl; split_and!; try done; try congruence.
    intros e' _ [= <-]. split; [done|]. by apply Hwrap.
  - destruct out as [[[info|]]|]; simpl; split_and!; try done; congruence.
Qed.

#[local] Opaque resourceDeploymentConfigRead.

Lemma createInput_name (d : ResourceData) (name : string)
    (input : CreateDeploymentConfigInput) :
  createInput d = Ok (name, input) →
  Get d "deployment_config_name" = VString name
  ∧ create_DeploymentConfigName input = Some name.
Proof.
  unfold createInput.
  destruct (Get d "deployment_config_name") as [|s| | | | | | |]; try done. simpl.
  destruct (asString (Get d "compute_platform")); [|done]. simpl.
  destruct (expandMinimumHealthyHosts d); [|done]. simpl.
  destruct (expandTrafficRoutingConfig d); [|done]. simpl.
  destruct (expandZonalConfig d); [|done]. simpl.
  by intros [= <- <-].
Qed.

Lemma run_create (d : ResourceData) (r : R) (name : string)
    (input : CreateDeploymentConfigInput) :
  createInput d = Ok (name, input) →
  run c (create d) r
  = let response := onCreate c input r in
    match response.1.2 with
    | Some e =>
      {| returned :=
           Ok (sdkdiag.AppendErrorf []
                 ("creating CodeDeploy Deployment Config (" +:+ name +:+ "): " +:+ ErrorText e), d);
         requests := [ReqCreate input];
         remote := response.2 |}
    | None =>
      let o := run c (read (SetId d name)) response.2 in
      {| returned := x ← returned o; Ok (x.1, x.2);
         requests := ReqCreate input :: requests o;
         remote := remote o |}
    end.
Proof.
  intros Hin. unfold resourceDeploymentConfigCreate.
  rewrite Hin. unfold mbind at 1, Prog_bind at 1. simpl.
  destruct (onCreate c input r) as [[out [e|]] r']; simpl; [done|].
  change (conn.bind ?p ?f) with (p ≫= f). rewrite run_bind.
  destruct (run c (read (SetId d name)) r') as [[[diags d']|msg] reqs rem]; simpl; [|done].
  by rewrite app_nil_r.
Qed.

(** C5: when the create call of the client returns an error, create returns
    one error diagnostic that names the config and carries the error's text,
    the resource data is the one it was given, identifier included, and the
    create request is the only request sent: no read follows. *)
Theorem create_failure (d : ResourceData) (r : R) (name : string)
    (input : CreateDeploymentConfigInput) (e : error) :
  createInput d = Ok (name, input) →
  (onCreate c input r).1.2 = Some e →
  run c (create d) r
  = {| returned :=
         Ok ([ {| diag.severity := diag.Error;
                  diag.Summary := "creating CodeDeploy Deployment Config (" +:+ name +:+ "): "
                                  +:+ ErrorText e |} ], d);
       requests := [ReqCreate input];
       remote := (onCreate c input r).2 |}.
Proof.
  intros Hin He. rewrite (run_create _ _ _ _ Hin). simpl. by rewrite He.
Qed.

(** C4: when create, invoked by the host on resource data marked as new whose
    deployment_config_name is N, returns without an error diagnostic, the
    identifier of the resource data it returns is N, and it has sent exactly
    two requests: the create request, which names N, and then the get request
    of the read, for the name N. *)
Theorem create_adopts_name (d d' : ResourceData) (r : R) (N : string)
    (diags : diag.Diagnostics) :
  IsNewResource d = true →
  Get d "deployment_config_name" = VString N →
  returned (run c (create d) r) = Ok (diags, d') →
  diag.HasError diags = false →
  Id d' = N
  ∧ ∃ input, create_DeploymentConfigName input = Some N
      ∧ requests (run c (create d) r)
        = [ReqCreate input; ReqGet {| get_DeploymentConfigName := Some N |}].
Proof.
  intros Hnew HN Hret Hok.
  destruct (createInput d) as [[name input]|msg] eqn:Hin.
  2:{ unfold resourceDeploymentConfigCreate in Hret. rewrite Hin in Hret. done. }
  destruct (createInput_name _ _ _ Hin) as [HN' Hname].
  rewrite HN in HN'. injection HN' as <-.
  rewrite (run_create _ _ _ _ Hin) in Hret |- *. simpl in *.
  destruct (onCreate c input r) as [[out [e|]] r']; simpl in *.
  { injection Hret as <- <-. done. }
  destruct (run_read (SetId d N) r') as [Hreq _].
  destruct (returned (run c (read (SetId d N)) r')) as [[diags0 d0]|msg] eqn:Hrd; [|done].
  simpl in Hret. injection Hret as <- <-.
  split.
  - by apply (read_new_Id (SetId d N) d0 r' diags0).
  - exists input. split; [done|]. by rewrite Hreq.
Qed.

End Lifecycle.

(** ** Validation *)

Lemma HasError_app (a b : diag.Diagnostics) :
  diag.HasError (a ++ b) = diag.HasError a || diag.HasError b.
Proof. apply existsb_app. Qed.

Lemma HasError_flat_map {A} (f : A → diag.Diagnostics) (l : list A) (x : A) :
  x ∈ l → diag.HasError (f x) = true → diag.HasError (flat_map f l) = true.
Proof.
  intros Hx Hf. induction l as [|y l IH]; [by apply elem_of_nil in Hx|].
  simpl. rewrite HasError_app. apply elem_of_cons in Hx as [->|Hx].
  - by rewrite Hf.
  - rewrite IH by done. apply orb_true_r.
Qed.

(** An attribute that is set together with one it conflicts with is refused. *)
Lemma validate_conflict (raw : gmap string value) (s : Schema) (k ck : string) (v : value) :
  ConfigGet raw k = Some v →
  ck ∈ s_ConflictsWith s →
  is_Some (ConfigGet raw ck) →
  diag.HasError (validate raw s k) = true.
Proof.
  intros Hk Hck Hset. destruct s as [t o r cp fn mx cw df vf el]; simpl in *.
  rewrite Hk. destruct (negb r && negb o); [done|].
  unfold validateConflictingAttributes.
  destruct (find _ cw) as [ck'|] eqn:Hfind; [done|].
  exfalso. induction cw as [|ck0 cw IH]; [by apply elem_of_nil in Hck|].
  simpl in Hfind. apply elem_of_cons in Hck as [<-|Hck].
  - by rewrite bool_decide_eq_true_2 in Hfind.
  - destruct (bool_decide _) in Hfind; [done|]. by apply IH.
Qed.

(** An error in an attribute of an element of a block list is an error of the
    list. *)
Lemma validate_element (raw : gmap string value) (s : Schema) (k : string)
    (l : list value) (i : nat) (fields : list (string * Schema)) (e : string * Schema) :
  ConfigGet raw k = Some (VSlice l) →
  s_Type s = TypeList →
  s_Elem s = Some fields →
  (i < length l)%nat →
  e ∈ fields →
  diag.HasError (validate raw e.2 (k +:+ "." +:+ pretty i +:+ "." +:+ e.1)) = true →
  diag.HasError (validate raw s k) = true.
Proof.
  intros Hk Ht He Hi Hin Herr. destruct s as [t o r cp fn mx cw df vf el]; simpl in *.
  subst t el. rewrite Hk. destruct (negb r && negb o); [done|].
  unfold validateConflictingAttributes. destruct (find _ cw); [done|].
  rewrite HasError_app. apply orb_true_iff. right.
  apply (HasError_flat_map _ _ i).
  - apply list_elem_of_In, in_seq. lia.
  - by apply (HasError_flat_map _ _ e).
Qed.

Lemma Validate_field (raw : gmap string value) (fields : list (string * Schema))
    (e : string * Schema) :
  e ∈ fields → diag.HasError (validate raw e.2 e.1) = true →
  diag.HasError (Validate fields raw) = true.
Proof. intros. by apply (HasError_flat_map _ _ e). Qed.

(** C8: a configuration whose traffic_routing_config block holds both a
    time_based_canary block and a time_based_linear block is refused by the
    validation of the schema, and the host, which validates before it invokes
    create, returns the validation's diagnostics without a request to the
    client. *)
Theorem both_sub_blocks_rejected (ErrorText : error → string)
    (NotFound : option error → bool) {R : Type} (c : Client R)
    (raw m : gmap string value) (rest : list value)
    (cb lb : value) (cbs lbs : list value) (d : ResourceData) (r : R) :
  raw !! "traffic_routing_config" = Some (VSlice (VMap m :: rest)) →
  m !! "time_based_canary" = Some (VSlice (cb :: cbs)) →
  m !! "time_based_linear" = Some (VSlice (lb :: lbs)) →
  diag.HasError (Validate resourceDeploymentConfigSchema raw) = true
  ∧ run c (hostCreate ErrorText NotFound raw d) r
    = {| returned := Ok (Validate resourceDeploymentConfigSchema raw, d);
         requests := [];
         remote := r |}.
Proof.
  intros Hraw Hc Hl.
  assert (diag.HasError (Validate resourceDeploymentConfigSchema raw) = true) as Herr.
  { unfold resourceDeploymentConfigSchema.
    eapply Validate_field.
    { do 4 apply list_elem_of_further. apply list_elem_of_here. }
    cbn [fst snd].
    eapply (validate_element _ _ _ _ 0%nat).
    - unfold ConfigGet. simpl. by rewrite Hraw.
    - reflexivity.
    - reflexivity.
    - simpl. lia.
    - apply list_elem_of_here.
    - cbn [fst snd].
      eapply validate_conflict.
      + unfold ConfigGet. simpl. rewrite Hraw. simpl. by rewrite Hc.
      + apply list_elem_of_here.
      + unfold ConfigGet. simpl. rewrite Hraw. simpl. rewrite Hl. by eexists. }
  split; [done|]. unfold hostCreate. by rewrite Herr.
Qed.

(** ** The theorems at concrete inputs *)


Lemma read_not_found_witness :
  let d := SetId (resourceData example.serverConfig) "N" in
  requests (run example.memoryClient
              (resourceDeploymentConfigRead example.errorText example.notFound d) ∅)
  = [ReqGet {| get_DeploymentConfigName := Some "N" |}]
  ∧ returned (run example.memoryClient
                (resourceDeploymentConfigRead example.errorText example.notFound d) ∅)
    = Ok ([], SetId d "").
Proof.
  intros d.
  assert (errs.IsA DeploymentConfigDoesNotExistException
            (onGet example.memoryClient {| get_DeploymentConfigName := Some (Id d) |} ∅).1.2
          = true) as HA by (vm_compute; reflexivity).
  destruct (read_not_found example.errorText example.notFound example.memoryClient d ∅
              (λ _ _, eq_refl) HA) as (H1 & H2 & _).
  split; [exact H1|exact (H2 eq_refl)].
Defined.

Lemma lookup_classifies_witness :
  returned (run example.memoryClient (findDeploymentConfigByName "N") ∅)
  = Ok (None,
        Some (NotFoundError
                (Some (OperationError (Some DeploymentConfigDoesNotExistException)
                         "no deployment configuration found"))
                {| get_DeploymentConfigName := Some "N" |}))
  ∧ returned (run example.offlineClient (findDeploymentConfigByName "N") tt)
    = Ok (None, Some (OperationError None "connection refused")).
Proof.
  split.
  - exact (proj1 (proj2 (proj2 (lookup_classifies example.errorText example.notFound
                                  example.memoryClient "N" ∅))) eq_refl).
  - exact (proj1 (proj1 (proj2 (proj2 (proj2 (lookup_classifies example.errorText
                                                example.notFound example.offlineClient "N" tt))))
                    (OperationError None "connection refused") eq_refl eq_refl)).
Defined.

Lemma create_failure_witness :
  let d := MarkNewResource (resourceData example.serverConfig) in
  ∃ input,
    run example.offlineClient
      (resourceDeploymentConfigCreate example.errorText example.notFound d) tt
    = {| returned :=
           Ok ([ {| diag.severity := diag.Error;
                    diag.Summary :=
                      "creating CodeDeploy Deployment Config (N): connection refused" |} ], d);
         requests := [ReqCreate input];
         remote := tt |}.
Proof.
  intros d. eexists.
  apply (create_failure example.errorText example.notFound example.offlineClient d tt "N" _
           (OperationError None "connection refused")).
  - vm_compute. reflexivity.
  - reflexivity.
Defined.

Lemma create_adopts_name_witness :
  let d := MarkNewResource (resourceData example.serverConfig) in
  ∃ d', returned (run example.memoryClient
                    (resourceDeploymentConfigCreate example.errorText example.notFound d) ∅)
        = Ok ([], d')
        ∧ Id d' = "N"
        ∧ ∃ input, create_DeploymentConfigName input = Some "N"
            ∧ requests (run example.memoryClient
                          (resourceDeploymentConfigCreate example.errorText example.notFound d) ∅)
              = [ReqCreate input; ReqGet {| get_DeploymentConfigName := Some "N" |}].
Proof.
  intros d. eexists. split.
  - vm_compute. reflexivity.
  - eapply (create_adopts_name example.errorText example.notFound example.memoryClient d _ ∅ "N" []).
    + reflexivity.
    + reflexivity.
    + vm_compute. reflexivity.
    + reflexivity.
Defined.

Lemma both_sub_blocks_rejected_witness :
  diag.HasError (Validate resourceDeploymentConfigSchema (rawConfig example.bothConfig)) = true
  ∧ requests (run example.memoryClient
                (hostCreate example.errorText example.notFound (rawConfig example.bothConfig)
                   (resourceData example.bothConfig)) ∅)
    = [].
Proof.
  destruct (both_sub_blocks_rejected example.errorText example.notFound example.memoryClient
              (rawConfig example.bothConfig)
              (rawTrafficRouting
                 {| r_type := "TimeBasedCanary";
                    r_time_based_canary := Some {| t_interval := 10; t_percentage := 25 |};
                    r_time_based_linear := Some {| t_interval := 5; t_percentage := 10 |} |})
              []
              (VMap (timeBasedAttrs {| t_interval := 10; t_percentage := 25 |}))
              (VMap (timeBasedAttrs {| t_interval := 5; t_percentage := 10 |}))
              [] [] (resourceData example.bothConfig) ∅ eq_refl eq_refl eq_refl) as [H1 H2].
  split; [exact H1|]. by rewrite H2.
Defined.

(** * Further properties of the code *)

Lemma int32_in_range (n : Z) : is_int32 (int32 n).
Proof.
  unfold is_int32, fits, int32, wrap.
  change (2 ^ (32 - 1)) with 2147483648. change (2 ^ 32) with 4294967296.
  pose proof (Z.mod_pos_bound (n + 2147483648) 4294967296). lia.
Qed.

Lemma int64_in_range (n : Z) : fits 64 (int64 n).
Proof.
  unfold fits, int64, wrap.
  change (2 ^ (64 - 1)) with 9223372036854775808.
  change (2 ^ 64) with 18446744073709551616.
  pose proof (Z.mod_pos_bound (n + 9223372036854775808) 18446744073709551616). lia.
Qed.

Lemma apiBlocks_wf (cfg : Config) : blocksWf (apiBlocks cfg).
Proof.
  destruct cfg as [p n h t z]. unfold blocksWf, apiBlocks; simpl. split_and!.
  - destruct h; simpl; [apply int32_in_range|done].
  - destruct t as [[ty c l]|]; simpl; [|done]. split.
    + destruct c; simpl; [split; apply int32_in_range|done].
    + destruct l; simpl; [split; apply int32_in_range|done].
  - destruct z as [[f pz m]|]; simpl; [|done]. split_and!.
    + eexists. split; [done|]. apply int64_in_range.
    + destruct pz; simpl; [apply int32_in_range|done].
    + eexists. split; [done|]. apply int64_in_range.
Qed.

Lemma expand_after_flatten (b : Blocks) (d : ResourceData) :
  blocksWf b → rd_schema d = resourceDeploymentConfigSchema →
  ∃ d', flattenBlocks b d = Ok (d', []) ∧ expandBlocks d' = Ok b
        ∧ Id d' = Id d ∧ IsNewResource d' = IsNewResource d.
Proof.
  intros Hb Hs.
  destruct b as [hosts routing zonal]. destruct Hb as (Hbh & Hbr & Hbz).
  simpl in Hbh, Hbr, Hbz.
  unfold flattenBlocks. cbn [b_hosts b_routing b_zonal].
  erewrite (Set'_written d "minimum_healthy_hosts"); [|exact Hs|apply write_hosts].
  cbv beta iota.
  erewrite (Set'_written _ "traffic_routing_config"); [|exact Hs|apply write_routing].
  cbv beta iota.
  destruct (write_zonal _ (zonalWf_durations _ Hbz)) as (v & -> & Hw).
  change (Ok v ≫= ?f) with (f v). cbv beta.
  erewrite (Set'_written _ "zonal_config"); [|exact Hs|exact Hw].
  cbv beta iota. cbn [rd_schema rd_id rd_isNew rd_attrs].
  eexists. split; [reflexivity|]. split; [|done].
  unfold expandBlocks.
  rewrite (expand_hosts _ (cfgHosts <$> hosts)); cycle 1.
  { unfold Get. cbn [rd_attrs]. by rewrite !lookup_insert_ne, lookup_insert_eq by done. }
  rewrite (expand_routing _ (cfgRouting <$> routing)); cycle 1.
  { unfold Get. cbn [rd_attrs]. by rewrite !lookup_insert_ne, lookup_insert_eq by done. }
  rewrite (expand_zonal _ (cfgZonal <$> zonal)); cycle 1.
  { unfold Get. cbn [rd_attrs]. by rewrite lookup_insert_eq. }
  rewrite api_cfg_hosts, api_cfg_routing, api_cfg_zonal by done.
  reflexivity.
Qed.


(** X2: whatever integers a configuration holds, the API shapes that expand
    produces from it lie within the ranges of their types and carry both zonal
    durations, so flattening them into resource data of this schema succeeds
    and expanding again returns the same shapes: after one expansion nothing
    changes any more. *)
Theorem expand_is_stable (cfg : Config) (d : ResourceData) :
  rd_schema d = resourceDeploymentConfigSchema →
  expandBlocks (resourceData cfg) = Ok (apiBlocks cfg)
  ∧ blocksWf (apiBlocks cfg)
  ∧ ∃ d', flattenBlocks (apiBlocks cfg) d = Ok (d', [])
          ∧ expandBlocks d' = Ok (apiBlocks cfg).
Proof.
  intros Hs. split; [|split; [apply apiBlocks_wf|]].
  - unfold expandBlocks.
    rewrite (expand_hosts _ (minimum_healthy_hosts cfg)) by reflexivity.
    rewrite (expand_routing _ (traffic_routing_config cfg)) by reflexivity.
    rewrite (expand_zonal _ (zonal_config cfg)) by reflexivity.
    reflexivity.
  - destruct (expand_after_flatten _ d (apiBlocks_wf cfg) Hs) as (d' & H1 & H2 & _).
    by exists d'.
Qed.

(** X3: when a block attribute is not stored at all, or stored as the empty
    list, its expand function returns nil: resource data without any of the
    three blocks expands to three nil pointers, without a panic. *)
Theorem expand_absent_blocks (d : ResourceData) :
  rd_schema d = resourceDeploymentConfigSchema →
  (rd_attrs d !! "minimum_healthy_hosts" = None
   ∨ rd_attrs d !! "minimum_healthy_hosts" = Some (VSlice [])) →
  (rd_attrs d !! "traffic_routing_config" = None
   ∨ rd_attrs d !! "traffic_routing_config" = Some (VSlice [])) →
  (rd_attrs d !! "zonal_config" = None
   ∨ rd_attrs d !! "zonal_config" = Some (VSlice [])) →
  expandBlocks d = Ok {| b_hosts := None; b_routing := None; b_zonal := None |}.
Proof.
  intros Hs Hh Hr Hz. unfold expandBlocks.
  rewrite (expand_hosts d None); cycle 1.
  { unfold Get. rewrite Hs. by destruct Hh as [-> | ->]. }
  rewrite (expand_routing d None); cycle 1.
  { unfold Get. rewrite Hs. by destruct Hr as [-> | ->]. }
  rewrite (expand_zonal d None); cycle 1.
  { unfold Get. rewrite Hs. by destruct Hz as [-> | ->]. }
  reflexivity.
Qed.

(** X4: when the minimum_healthy_hosts list has a first element that is a map,
    expandMinimumHealthyHosts returns exactly when that map holds a string
    under "type" and an int under "value", and then returns the type with the
    value converted to 32 bits; with either key missing or of another type it
    panics in the type assertion. *)
Theorem expandMinimumHealthyHosts_block (d : ResourceData) (host : gmap string value)
    (rest : list value) (result : option MinimumHealthyHosts) :
  Get d "minimum_healthy_hosts" = VSlice (VMap host :: rest) →
  expandMinimumHealthyHosts d = Ok result
  ↔ ∃ ty v, host !! "type" = Some (VString ty) ∧ host !! "value" = Some (VInt v)
            ∧ result = Some {| mhh_Type := ty; mhh_Value := int32 v |}.
Proof.
  intros HG. unfold expandMinimumHealthyHosts, GetOk. rewrite HG. simpl.
  unfold mapIndex. split.
  - destruct (host !! "type") as [[| ty | | | | | | |]|]; simpl; try done.
    destruct (host !! "value") as [[| | | v | | | | |]|]; simpl; try done.
    intros [= <-]. eauto.
  - intros (ty & v & -> & -> & ->). reflexivity.
Qed.

Section More.
Context (ErrorText : error → string) (NotFound : option error → bool).
Context {R : Type} (c : Client R).

#[local] Abbreviation read := (resourceDeploymentConfigRead ErrorText NotFound).
#[local] Abbreviation create := (resourceDeploymentConfigCreate ErrorText NotFound).

(** The attributes after a refresh from [info]. *)
Lemma refresh_written (info : DeploymentConfigInfo) (d : ResourceData) :
  rd_schema d = resourceDeploymentConfigSchema →
  durationsPresent (ZonalConfig_ info) = true →
  refresh ErrorText info d
  = Ok ([], {| rd_schema := rd_schema d; rd_id := rd_id d; rd_isNew := rd_isNew d;
               rd_attrs :=
                 <["zonal_config" := blockList (zonalAttrs <$> (cfgZonal <$> ZonalConfig_ info))]>
                 (<["traffic_routing_config" :=
                      blockList (trafficRoutingAttrs <$> (cfgRouting <$> TrafficRoutingConfig_ info))]>
                 (<["minimum_healthy_hosts" :=
                      blockList (hostsAttrs <$> (cfgHosts <$> MinimumHealthyHosts_ info))]>
                 (<["deployment_config_name" := VString (default "" (DeploymentConfigName info))]>
                 (<["deployment_config_id" := VString (default "" (DeploymentConfigId info))]>
                 (<["compute_platform" := VString (ComputePlatform info)]> (rd_attrs d)))))) |}).
Proof.
  intros Hs Hd. unfold refresh.
  erewrite (Set'_written d "compute_platform"); [|exact Hs|reflexivity]. cbn [fst].
  erewrite (Set'_written _ "deployment_config_id"); [|exact Hs|reflexivity]. cbn [fst].
  erewrite (Set'_written _ "deployment_config_name"); [|exact Hs|reflexivity]. cbn [fst].
  erewrite (Set'_written _ "minimum_healthy_hosts"); [|exact Hs|apply write_hosts].
  cbv beta iota.
  erewrite (Set'_written _ "traffic_routing_config"); [|exact Hs|apply write_routing].
  cbv beta iota.
  destruct (write_zonal _ Hd) as (v & -> & Hw).
  change (Ok v ≫= ?f) with (f v). cbv beta.
  erewrite (Set'_written _ "zonal_config"); [|exact Hs|exact Hw].
  reflexivity.
Qed.

Lemma refresh_panics (info : DeploymentConfigInfo) (d : ResourceData) :
  rd_schema d = resourceDeploymentConfigSchema →
  durationsPresent (ZonalConfig_ info) = false →
  refresh ErrorText info d = Panic "invalid memory address or nil pointer dereference".
Proof.
  intros Hs Hd. unfold refresh.
  erewrite (Set'_written d "compute_platform"); [|exact Hs|reflexivity]. cbn [fst].
  erewrite (Set'_written _ "deployment_config_id"); [|exact Hs|reflexivity]. cbn [fst].
  erewrite (Set'_written _ "deployment_config_name"); [|exact Hs|reflexivity]. cbn [fst].
  erewrite (Set'_written _ "minimum_healthy_hosts"); [|exact Hs|apply write_hosts].
  cbv beta iota.
  erewrite (Set'_written _ "traffic_routing_config"); [|exact Hs|apply write_routing].
  cbv beta iota.
  by destruct (ZonalConfig_ info) as [[[a|] pz [b|]]|].
Qed.

#[local] Arguments refresh : simpl never.

(** What read returns, by the cases of the client's response. *)
Lemma read_returned (d : ResourceData) (r : R) :
  let input := {| get_DeploymentConfigName := Some (Id d) |} in
  let response := onGet c input r in
  let found :=
    if errs.IsA DeploymentConfigDoesNotExistException response.1.2
    then (None, Some (NotFoundError response.1.2 input))
    else match response.1.2 with
         | Some e => (None, Some e)
         | None =>
           match response.1.1 ≫= DeploymentConfigInfo_ with
           | Some info => (Some info, None)
           | None => (None, Some (EmptyResultError input))
           end
         end in
  returned (run c (read d) r)
  = if negb (IsNewResource d) && NotFound found.2 then Ok ([], SetId d "")
    else match found.2 with
         | Some e =>
           Ok (sdkdiag.AppendErrorf []
                 ("reading CodeDeploy Deployment Config (" +:+ Id d +:+ "): " +:+ ErrorText e), d)
         | None =>
           match found.1 with
           | Some info => refresh ErrorText info d
           | None => Panic "invalid memory address or nil pointer dereference"
           end
         end.
Proof.
  unfold resourceDeploymentConfigRead, findDeploymentConfigByName, mbind, Prog_bind. simpl.
  destruct (onGet c _ r) as [[out err] r']; simpl.
  destruct (errs.IsA _ err); simpl.
  { by destruct (negb (IsNewResource d) && NotFound _). }
  destruct err as [e|]; simpl.
  { by destruct (negb (IsNewResource d) && NotFound _). }
  destruct out as [[[info|]]|]; simpl;
    try by destruct (negb (IsNewResource d) && NotFound _).
  destruct (negb (IsNewResource d) && NotFound _); [done|]. simpl.
  by destruct (refresh ErrorText info d).
Qed.

(** X5: when the lookup of a read finds the object, with both zonal durations
    if it has a zonal config, read returns no diagnostic and has overwritten
    all six attributes from the object (a nil id or name pointer as the empty
    string, an absent block as the empty list), leaving the identifier and the
    new mark as they were. None of the "setting ..." error branches is taken. *)
Theorem read_refreshes_every_attribute (d : ResourceData) (r : R)
    (output : GetDeploymentConfigOutput) (info : DeploymentConfigInfo) :
  rd_schema d = resourceDeploymentConfigSchema →
  negb (IsNewResource d) && NotFound None = false →
  (onGet c {| get_DeploymentConfigName := Some (Id d) |} r).1 = (Some output, None) →
  DeploymentConfigInfo_ output = Some info →
  durationsPresent (ZonalConfig_ info) = true →
  returned (run c (read d) r)
  = Ok ([], {| rd_schema := rd_schema d; rd_id := rd_id d; rd_isNew := rd_isNew d;
               rd_attrs :=
                 <["zonal_config" := blockList (zonalAttrs <$> (cfgZonal <$> ZonalConfig_ info))]>
                 (<["traffic_routing_config" :=
                      blockList (trafficRoutingAttrs <$> (cfgRouting <$> TrafficRoutingConfig_ info))]>
                 (<["minimum_healthy_hosts" :=
                      blockList (hostsAttrs <$> (cfgHosts <$> MinimumHealthyHosts_ info))]>
                 (<["deployment_config_name" := VString (default "" (DeploymentConfigName info))]>
                 (<["deployment_config_id" := VString (default "" (DeploymentConfigId info))]>
                 (<["compute_platform" := VString (ComputePlatform info)]> (rd_attrs d)))))) |}).
Proof.
  intros Hs Hnf Hget Hinfo Hd. rewrite read_returned.
  destruct (onGet c _ r) as [[out err] r']. simpl in Hget. injection Hget as -> ->.
  simpl. rewrite Hinfo. simpl. rewrite Hnf. by apply refresh_written.
Qed.

(** X6: read panics exactly when the lookup finds an object whose zonal config
    lacks a duration, with the message of the nil dereference; in particular
    the lookup's result pointer is never dereferenced when it is nil. *)
Theorem read_panics_iff_duration_missing (d : ResourceData) (r : R) (msg : string) :
  rd_schema d = resourceDeploymentConfigSchema →
  NotFound None = false →
  returned (run c (read d) r) = Panic msg
  ↔ ∃ output info,
      (onGet c {| get_DeploymentConfigName := Some (Id d) |} r).1 = (Some output, None)
      ∧ DeploymentConfigInfo_ output = Some info
      ∧ durationsPresent (ZonalConfig_ info) = false
      ∧ msg = "invalid memory address or nil pointer dereference".
Proof.
  intros Hs Hnf. rewrite read_returned.
  destruct (onGet c _ r) as [[out err] r']. simpl.
  destruct (errs.IsA _ err) eqn:HA; simpl.
  { destruct (negb (IsNewResource d) && NotFound _); split; try done;
      intros (o & i & ? & _); simplify_eq/=. }
  destruct err as [e|]; simpl.
  { destruct (negb (IsNewResource d) && NotFound _); split; try done;
      intros (o & i & ? & _); simplify_eq/=. }
  destruct (out ≫= DeploymentConfigInfo_) as [info|] eqn:Hout; simpl.
  - rewrite Hnf, andb_false_r.
    destruct out as [output|]; [|done]. simpl in Hout.
    destruct (durationsPresent (ZonalConfig_ info)) eqn:Hd.
    + rewrite refresh_written by done. split; [done|].
      intros (o & i & ? & Hi & Hd' & _). simplify_eq/=. congruence.
    + rewrite refresh_panics by done. split.
      * intros [= <-]. by exists output, info.
      * by intros (_ & _ & _ & _ & _ & ->).
  - destruct (negb (IsNewResource d) && NotFound _); split; try done;
      intros (o & i & ? & Hi & _); simplify_eq/=; congruence.
Qed.

Lemma Set'_frame (d : ResourceData) (k : string) (v : value) :
  rd_id (Set' d k v).1 = rd_id d
  ∧ rd_isNew (Set' d k v).1 = rd_isNew d
  ∧ rd_schema (Set' d k v).1 = rd_schema d.
Proof.
  unfold Set'. destruct (lookupSchema _ k) as [s|]; [|done].
  by destruct (writeField s v).
Qed.

Lemma refresh_frame (info : DeploymentConfigInfo) (d d' : ResourceData)
    (diags : diag.Diagnostics) :
  refresh ErrorText info d = Ok (diags, d') →
  rd_id d' = rd_id d ∧ rd_isNew d' = rd_isNew d ∧ rd_schema d' = rd_schema d.
Proof.
  unfold refresh.
  set (d1 := (Set' d "compute_platform" _).1).
  set (d2 := (Set' d1 "deployment_config_id" _).1).
  set (d3 := (Set' d2 "deployment_config_name" _).1).
  assert (rd_id d3 = rd_id d ∧ rd_isNew d3 = rd_isNew d ∧ rd_schema d3 = rd_schema d) as H3.
  { destruct (Set'_frame d "compute_platform" (VString (ComputePlatform info))) as (?&?&?).
    destruct (Set'_frame d1 "deployment_config_id"
                (VStringPtr (DeploymentConfigId info))) as (?&?&?).
    destruct (Set'_frame d2 "deployment_config_name"
                (VStringPtr (DeploymentConfigName info))) as (?&?&?).
    unfold d3, d2, d1 in *. split_and!; congruence. }
  clearbody d3. clear d1 d2.
  pose proof (Set'_frame d3 "minimum_healthy_hosts"
                (flattenMinimumHealthHosts (MinimumHealthyHosts_ info))) as H4.
  destruct (Set' d3 "minimum_healthy_hosts" _) as [d4 [e|]]; simpl in H4.
  { intros [= _ <-]. destruct H3 as (?&?&?), H4 as (?&?&?). split_and!; congruence. }
  pose proof (Set'_frame d4 "traffic_routing_config"
                (flattenTrafficRoutingConfig (TrafficRoutingConfig_ info))) as H5.
  destruct (Set' d4 "traffic_routing_config" _) as [d5 [e|]]; simpl in H5.
  { intros [= _ <-]. destruct H3 as (?&?&?), H4 as (?&?&?), H5 as (?&?&?).
    split_and!; congruence. }
  destruct (flattenZonalConfig (ZonalConfig_ info)) as [zonal|msg]; [|done].
  change (Ok zonal ≫= ?f) with (f zonal). cbv beta.
  pose proof (Set'_frame d5 "zonal_config" zonal) as H6.
  destruct (Set' d5 "zonal_config" zonal) as [d6 [e|]]; simpl in H6;
    intros [= _ <-]; destruct H3 as (?&?&?), H4 as (?&?&?), H5 as (?&?&?), H6 as (?&?&?);
    split_and!; congruence.
Qed.

(** X7: whenever read returns, it has either cleared the identifier of a
    resource that is not new, with no diagnostic and nothing else changed, or
    left the identifier, the new mark and the schema as they were. *)
Theorem read_keeps_or_clears_identifier (d d' : ResourceData) (r : R)
    (diags : diag.Diagnostics) :
  returned (run c (read d) r) = Ok (diags, d') →
  (IsNewResource d = false ∧ diags = [] ∧ d' = SetId d "")
  ∨ (Id d' = Id d ∧ IsNewResource d' = IsNewResource d ∧ rd_schema d' = rd_schema d).
Proof.
  rewrite read_returned.
  destruct (onGet c _ r) as [[out err] r']. cbv zeta.
  set (found := if errs.IsA _ _ then _ else _). clearbody found.
  destruct (negb (IsNewResource d) && NotFound found.2) eqn:Hc.
  { intros [= <- <-]. left. apply andb_true_iff in Hc as [Hc _].
    by apply negb_true_iff in Hc. }
  destruct found.2 as [e|].
  { intros [= <- <-]. by right. }
  destruct found.1 as [info|]; [|done].
  intros Hr. right. by apply refresh_frame in Hr.
Qed.

(** X8: for every response of the client, the lookup returns without a panic,
    and returns an object exactly when it returns no error: never both, never
    neither. *)
Theorem lookup_returns_object_or_error (name : string) (r : R) :
  ∃ info err,
    returned (run c (findDeploymentConfigByName name) r) = Ok (info, err)
    ∧ (is_Some info ↔ err = None).
Proof.
  unfold findDeploymentConfigByName. simpl.
  destruct (onGet c _ r) as [[out err] r']; simpl.
  destruct (errs.IsA _ err); simpl.
  { eexists _, _. split; [done|]. split; [by intros [? ?]|done]. }
  destruct err as [e|]; simpl.
  { eexists _, _. split; [done|]. split; [by intros [? ?]|done]. }
  destruct out as [[[info|]]|]; simpl; eexists _, _; (split; [done|]);
    split; try done; by intros [? ?].
Qed.

#[local] Opaque resourceDeploymentConfigRead.

(** X9: when the create call succeeds and the get request of the read that
    follows returns an error, create, invoked on resource data marked new,
    returns one "reading ..." error diagnostic, and the resource data it
    returns carries the name as its identifier: the created object stays
    tracked. A not-found exception is reported the same way, wrapped in the
    not-found signal. *)
Theorem create_keeps_name_when_read_fails (d : ResourceData) (r : R) (name : string)
    (input : CreateDeploymentConfigInput) (e : error) :
  IsNewResource d = true →
  createInput d = Ok (name, input) →
  (onCreate c input r).1.2 = None →
  (onGet c {| get_DeploymentConfigName := Some name |} (onCreate c input r).2).1.2 = Some e →
  let signal :=
    if errs.IsA DeploymentConfigDoesNotExistException (Some e)
    then NotFoundError (Some e) {| get_DeploymentConfigName := Some name |}
    else e in
  returned (run c (create d) r)
  = Ok ([ {| diag.severity := diag.Error;
             diag.Summary := "reading CodeDeploy Deployment Config (" +:+ name +:+ "): "
                             +:+ ErrorText signal |} ], SetId d name)
  ∧ requests (run c (create d) r)
    = [ReqCreate input; ReqGet {| get_DeploymentConfigName := Some name |}].
Proof.
  intros Hnew Hin Hc Hg signal.
  rewrite (run_create ErrorText NotFound c _ _ _ _ Hin). cbv zeta. rewrite Hc.
  destruct (run_read ErrorText NotFound c (SetId d name) (onCreate c input r).2) as [Hreq _].
  cbn [requests returned]. rewrite Hreq. split; [|done].
  rewrite read_returned. cbn [Id SetId rd_id IsNewResource rd_isNew].
  unfold IsNewResource in Hnew. rewrite Hnew.
  destruct (onGet c _ _) as [[out err] r']. simpl in Hg. subst err.
  subst signal. cbn [fst snd negb andb].
  by destruct (errs.IsA DeploymentConfigDoesNotExistException (Some e)).
Qed.

(** X10: for every configuration within the integer ranges, if the create call
    succeeds and the get request returns the object as it was created, with an
    id of the remote's choosing, create returns no diagnostic, the identifier
    is the name, and the attributes are those of the configuration with only
    deployment_config_id set: the read after create introduces no difference. *)
Theorem create_then_read_restores_configuration (cfg : Config) (r : R) (cid : string)
    (created : option CreateDeploymentConfigOutput) (r1 r2 : R) :
  fitsAPI cfg →
  let name := deployment_config_name cfg in
  let input :=
    {| create_ComputePlatform := compute_platform cfg;
       create_DeploymentConfigName := Some name;
       create_MinimumHealthyHosts := apiHosts <$> minimum_healthy_hosts cfg;
       create_TrafficRoutingConfig := apiRouting <$> traffic_routing_config cfg;
       create_ZonalConfig := apiZonal <$> zonal_config cfg |} in
  let info :=
    {| ComputePlatform := compute_platform cfg;
       DeploymentConfigId := Some cid;
       DeploymentConfigName := Some name;
       MinimumHealthyHosts_ := create_MinimumHealthyHosts input;
       TrafficRoutingConfig_ := create_TrafficRoutingConfig input;
       ZonalConfig_ := create_ZonalConfig input |} in
  onCreate c input r = ((created, None), r1) →
  onGet c {| get_DeploymentConfigName := Some name |} r1
  = ((Some {| DeploymentConfigInfo_ := Some info |}, None), r2) →
  run c (create (MarkNewResource (resourceData cfg))) r
  = {| returned :=
         Ok ([], {| rd_schema := resourceDeploymentConfigSchema;
                    rd_id := name;
                    rd_isNew := true;
                    rd_attrs := <["deployment_config_id" := VString cid]> (attributes cfg) |});
       requests := [ReqCreate input; ReqGet {| get_DeploymentConfigName := Some name |}];
       remote := r2 |}.
Proof.
  intros (Hh & Hr & Hz) name input info Hc Hg.
  assert (createInput (MarkNewResource (resourceData cfg)) = Ok (name, input)) as Hin.
  { unfold createInput.
    replace (Get (MarkNewResource (resourceData cfg)) "deployment_config_name")
      with (VString (deployment_config_name cfg)) by reflexivity.
    replace (Get (MarkNewResource (resourceData cfg)) "compute_platform")
      with (VString (compute_platform cfg)) by reflexivity.
    rewrite (expand_hosts _ (minimum_healthy_hosts cfg)) by reflexivity.
    rewrite (expand_routing _ (traffic_routing_config cfg)) by reflexivity.
    rewrite (expand_zonal _ (zonal_config cfg)) by reflexivity.
    reflexivity. }
  rewrite (run_create ErrorText NotFound c _ _ _ _ Hin). cbv zeta. rewrite Hc.
  cbn [fst snd].
  destruct (run_read ErrorText NotFound c
              (SetId (MarkNewResource (resourceData cfg)) name) r1) as [Hreq Hrem].
  cbn [Id SetId rd_id] in Hreq, Hrem. rewrite Hg in Hrem.
  assert (returned (run c (read (SetId (MarkNewResource (resourceData cfg)) name)) r1)
          = Ok ([], {| rd_schema := resourceDeploymentConfigSchema;
                       rd_id := name;
                       rd_isNew := true;
                       rd_attrs := <["deployment_config_id" := VString cid]> (attributes cfg) |}))
    as Hret.
  { rewrite read_returned. cbn [Id SetId rd_id IsNewResource MarkNewResource rd_isNew].
    rewrite Hg. cbn [fst snd negb andb].
    replace (errs.IsA DeploymentConfigDoesNotExistException None) with false by reflexivity.
    cbn [mbind option_bind DeploymentConfigInfo_ fst snd].
    rewrite refresh_written; [|reflexivity|apply apiZonal_durations].
    subst info input. cbn [ZonalConfig_ TrafficRoutingConfig_ MinimumHealthyHosts_
      DeploymentConfigName DeploymentConfigId ComputePlatform create_ZonalConfig
      create_TrafficRoutingConfig create_MinimumHealthyHosts default
      rd_schema rd_id rd_isNew rd_attrs SetId MarkNewResource resourceData].
    rewrite cfg_api_hosts, cfg_api_routing, cfg_api_zonal by done.
    do 3 f_equal. }
  destruct (run c (read (SetId (MarkNewResource (resourceData cfg)) name)) r1)
    as [ret reqs rem]. simpl in *. by subst.
Qed.

End More.

(** X12: in the schema that resourceDeploymentConfig declares, at every level,
    each block list is optional, has at most one item and a nested resource;
    each attribute forces a new resource or is computed only; and each address
    named in a ConflictsWith is an attribute of the schema that names the
    first in return. The second part lists the addresses of all attributes. *)
Theorem schema_invariants :
  Forall (λ e, singletonBlock e.2 = true
               ∧ immutable e.2 = true
               ∧ conflictsSymmetric (allAttributes resourceDeploymentConfigSchema) e.1 e.2 = true)
         (allAttributes resourceDeploymentConfigSchema)
  ∧ (allAttributes resourceDeploymentConfigSchema).*1
    = [ "compute_platform"; "deployment_config_id"; "deployment_config_name";
        "minimum_healthy_hosts";
        "minimum_healthy_hosts.0.type"; "minimum_healthy_hosts.0.value";
        "traffic_routing_config";
        "traffic_routing_config.0.time_based_canary";
        "traffic_routing_config.0.time_based_canary.0.interval";
        "traffic_routing_config.0.time_based_canary.0.percentage";
        "traffic_routing_config.0.time_based_linear";
        "traffic_routing_config.0.time_based_linear.0.interval";
        "traffic_routing_config.0.time_based_linear.0.percentage";
        "traffic_routing_config.0.type";
        "zonal_config";
        "zonal_config.0.first_zone_monitor_duration_in_seconds";
        "zonal_config.0.minimum_healthy_hosts_per_zone";
        "zonal_config.0.minimum_healthy_hosts_per_zone.0.type";
        "zonal_config.0.minimum_healthy_hosts_per_zone.0.value";
        "zonal_config.0.monitor_duration_in_seconds" ].
Proof.
  split; [|reflexivity].
  apply Forall_forall. intros e He.
  vm_compute in He.
  repeat (apply elem_of_cons in He as [->|He]; [by vm_compute|]).
  by apply elem_of_nil in He.
Qed.

(** X13: the record that each of the six flatten functions builds for a
    present input has exactly the keys that the schema declares for the
    attributes of that block. *)
Theorem flatten_keys_are_schema_attributes
    (hosts : MinimumHealthyHosts) (routing : TrafficRoutingConfig)
    (canary : TimeBasedCanary) (linear : TimeBasedLinear)
    (perZone : MinimumHealthyHostsPerZone) (rest : option MinimumHealthyHostsPerZone)
    (first monitor : Z) :
  (∃ item, flattenMinimumHealthHosts (Some hosts) = VMaps (Some [item])
           ∧ blockNames "minimum_healthy_hosts" = Some (dom item))
  ∧ (∃ item, flattenTrafficRoutingConfig (Some routing) = VMaps (Some [item])
             ∧ blockNames "traffic_routing_config" = Some (dom item))
  ∧ (∃ item, flattenTimeBasedCanary (Some canary) = VMaps (Some [item])
             ∧ blockNames "traffic_routing_config.0.time_based_canary" = Some (dom item))
  ∧ (∃ item, flattenTimeBasedLinear (Some linear) = VMaps (Some [item])
             ∧ blockNames "traffic_routing_config.0.time_based_linear" = Some (dom item))
  ∧ (∃ item, flattenZonalConfig (Some {| FirstZoneMonitorDurationInSeconds := Some first;
                                         MinimumHealthyHostsPerZone_ := rest;
                                         MonitorDurationInSeconds := Some monitor |})
             = Ok (VMaps (Some [item]))
             ∧ blockNames "zonal_config" = Some (dom item))
  ∧ (∃ item, flattenMinimumHealthHostsPerZone (Some perZone) = VMaps (Some [item])
             ∧ blockNames "zonal_config.0.minimum_healthy_hosts_per_zone" = Some (dom item)).
Proof.
  split_and!; eexists; (split; [reflexivity|]); by vm_compute.
Qed.

Section Trace.
Context (ErrorText : error → string) (NotFound : option error → bool).
Context {R : Type} (c : Client R).

(** X11: create sends no request when building the request panics; otherwise
    it sends the create request first and, only if that call returned no
    error, the get request for the name; it never sends anything else. *)
Theorem create_request_trace (d : ResourceData) (r : R) :
  match createInput d with
  | Panic msg =>
    run c (resourceDeploymentConfigCreate ErrorText NotFound d) r
    = {| returned := Panic msg; requests := []; remote := r |}
  | Ok (name, input) =>
    requests (run c (resourceDeploymentConfigCreate ErrorText NotFound d) r)
    = ReqCreate input ::
      match (onCreate c input r).1.2 with
      | Some _ => []
      | None => [ReqGet {| get_DeploymentConfigName := Some name |}]
      end
  end.
Proof.
  destruct (createInput d) as [[name input]|msg] eqn:Hin.
  - rewrite (run_create ErrorText NotFound c _ _ _ _ Hin). cbv zeta.
    destruct ((onCreate c input r).1.2); [done|].
    cbn [requests]. by destruct (run_read ErrorText NotFound c (SetId d name)
                                   (onCreate c input r).2) as [-> _].
  - unfold resourceDeploymentConfigCreate. by rewrite Hin.
Qed.

End Trace.

(** ** The further properties at concrete inputs *)

Lemma expand_is_stable_witness :
  expandBlocks (resourceData example.wideConfig) = Ok (apiBlocks example.wideConfig)
  ∧ blocksWf (apiBlocks example.wideConfig)
  ∧ ∃ d', flattenBlocks (apiBlocks example.wideConfig) (resourceData example.canaryConfig)
          = Ok (d', [])
          ∧ expandBlocks d' = Ok (apiBlocks example.wideConfig).
Proof.
  exact (expand_is_stable example.wideConfig (resourceData example.canaryConfig) eq_refl).
Defined.

Lemma expand_absent_blocks_witness :
  expandBlocks more.importedData = Ok {| b_hosts := None; b_routing := None; b_zonal := None |}.
Proof.
  apply expand_absent_blocks; [reflexivity|left|left|left]; reflexivity.
Defined.

Lemma expandMinimumHealthyHosts_block_witness :
  expandMinimumHealthyHosts (resourceData example.serverConfig) = Ok (Some example.fleet75).
Proof.
  apply (expandMinimumHealthyHosts_block (resourceData example.serverConfig)
           (hostsAttrs {| h_type := "FLEET_PERCENT"; h_value := 75 |}) []).
  - reflexivity.
  - exists "FLEET_PERCENT", 75. split_and!; reflexivity.
Defined.

Lemma read_refreshes_every_attribute_witness :
  ∃ d', returned (run example.memoryClient
                    (resourceDeploymentConfigRead example.errorText example.notFound
                       more.importedData)
                    (<["N" := more.serverInfo]> ∅))
        = Ok ([], d')
        ∧ Id d' = "N"
        ∧ Get d' "deployment_config_id" = VString "id-N"
        ∧ Get d' "traffic_routing_config" = VSlice [].
Proof.
  eexists. split.
  - eapply (read_refreshes_every_attribute example.errorText example.notFound
              example.memoryClient more.importedData (<["N" := more.serverInfo]> ∅)
              {| DeploymentConfigInfo_ := Some more.serverInfo |} more.serverInfo).
    + reflexivity.
    + reflexivity.
    + vm_compute. reflexivity.
    + reflexivity.
    + reflexivity.
  - split_and!; vm_compute; reflexivity.
Defined.

Lemma read_panics_iff_duration_missing_witness :
  returned (run example.memoryClient
              (resourceDeploymentConfigRead example.errorText example.notFound
                 more.importedData)
              (<["N" := more.bareInfo]> ∅))
  = Panic "invalid memory address or nil pointer dereference".
Proof.
  apply (read_panics_iff_duration_missing example.errorText example.notFound
           example.memoryClient more.importedData (<["N" := more.bareInfo]> ∅)).
  - reflexivity.
  - reflexivity.
  - exists {| DeploymentConfigInfo_ := Some more.bareInfo |}, more.bareInfo.
    split_and!; first [reflexivity | vm_compute; reflexivity].
Defined.

Lemma read_keeps_or_clears_identifier_witness :
  (IsNewResource more.importedData = false
   ∧ @nil diag.Diagnostic = [] ∧ SetId more.importedData "" = SetId more.importedData "")
  ∨ (Id (SetId more.importedData "") = Id more.importedData
     ∧ IsNewResource (SetId more.importedData "") = IsNewResource more.importedData
     ∧ rd_schema (SetId more.importedData "") = rd_schema more.importedData).
Proof.
  apply (read_keeps_or_clears_identifier example.errorText example.notFound
           example.memoryClient more.importedData (SetId more.importedData "") ∅ []).
  vm_compute. reflexivity.
Defined.

Lemma create_keeps_name_when_read_fails_witness :
  let d := MarkNewResource (resourceData example.serverConfig) in
  ∃ input,
    returned (run more.writeOnlyClient
                (resourceDeploymentConfigCreate example.errorText example.notFound d) tt)
    = Ok ([ {| diag.severity := diag.Error;
               diag.Summary := "reading CodeDeploy Deployment Config (N): request timed out" |} ],
          SetId d "N")
    ∧ requests (run more.writeOnlyClient
                  (resourceDeploymentConfigCreate example.errorText example.notFound d) tt)
      = [ReqCreate input; ReqGet {| get_DeploymentConfigName := Some "N" |}].
Proof.
  intros d. eexists.
  apply (create_keeps_name_when_read_fails example.errorText example.notFound
           more.writeOnlyClient d tt "N" _ (OperationError None "request timed out")).
  - reflexivity.
  - vm_compute. reflexivity.
  - reflexivity.
  - reflexivity.
Defined.

Lemma create_then_read_restores_configuration_witness :
  returned (run example.memoryClient
              (resourceDeploymentConfigCreate example.errorText example.notFound
                 (MarkNewResource (resourceData example.serverConfig))) ∅)
  = Ok ([], {| rd_schema := resourceDeploymentConfigSchema;
               rd_id := "N";
               rd_isNew := true;
               rd_attrs := <["deployment_config_id" := VString "id-N"]>
                             (attributes example.serverConfig) |}).
Proof.
  erewrite (create_then_read_restores_configuration example.errorText example.notFound
              example.memoryClient example.serverConfig ∅ "id-N").
  - reflexivity.
  - vm_compute. intuition discriminate.
  - vm_compute. reflexivity.
  - vm_compute. reflexivity.
Defined.
